(** * Allergie-Tagebuch: a shallow embedding of [symptom_tracker_app.py]

    The script fetches one day of weather (Meteostat) and pollen data
    (Pollenstiftung.de or a DWD station file), shows them, and appends a
    diary entry to [allergie_tagebuch.csv].

    Python values are embedded as the inductive [pyval]; a call that may
    raise returns a [result]; the remote services, the library parsers and
    the file system are the fields of a [World] and of the run-time [State].
    Each definition carries the name of the source function or expression it
    embeds. *)

From Stdlib Require Import ZArith String List Bool Floats.PrimFloat.
From stdpp Require Import base option list strings gmap.

Set Warnings "-register-all,-inexact-float".

Open Scope Z_scope.
Open Scope string_scope.

(** ** Python values *)

Record date := Date { year : Z; month : Z; day : Z }.

(** [pandas.Timestamp] / [datetime.datetime]: a calendar date and the time
    of day in nanoseconds. *)
Record Timestamp := Ts { ts_date : date; ts_time : Z }.

Inductive pyval :=
| VNone
| VBool (b : bool)
| VInt (z : Z)
| VFloat (f : float)
| VStr (s : string)
| VDate (d : date)
| VTimestamp (t : Timestamp)
| VList (l : list pyval)
| VDict (d : list (string * pyval))
| VSeries (l : list pyval).

(** A Python [dict] keeps its keys in insertion order; a labelled
    [pandas.Series] (one row of a frame) has the same shape. *)
Abbreviation dict := (list (string * pyval)).

#[global] Instance date_eq_dec : EqDecision date.
Proof. solve_decision. Defined.

#[global] Instance Timestamp_eq_dec : EqDecision Timestamp.
Proof. solve_decision. Defined.

(** ** Exceptions

    [Exception] stands for the instances of Python's [Exception] class: the
    errors that the interpreter and the libraries raise.  The clause
    [except Exception] catches every one of them. *)

Inductive Exception :=
| ValueError
| TypeError
| KeyError
| IndexError
| AttributeError
| ConnectionError
| Timeout
| HTTPError (status : Z)
| JSONDecodeError
| ParserError
| URLError
| OSError (errno : Z)
| OtherException (name : string).

Inductive result (A : Type) :=
| Ok (a : A)
| Raise (e : Exception).

Arguments Ok {A} a.
Arguments Raise {A} e.

#[global] Instance result_ret : MRet result := λ A a, Ok a.

#[global] Instance result_bind : MBind result := λ A B f m,
  match m with
  | Ok a => f a
  | Raise e => Raise e
  end.

(** [try: body / except Exception: handler] *)
Definition try_except {A} (body handler : result A) : result A :=
  match body with
  | Ok a => Ok a
  | Raise _ => handler
  end.

(** ** Dictionaries *)

(** [d.get(key, default)] on a [dict]. *)
Fixpoint dict_get (d : dict) (key : string) (dflt : pyval) : pyval :=
  match d with
  | [] => dflt
  | (k, v) :: d' => if decide (k = key) then v else dict_get d' key dflt
  end.

(** [d[key]] on a [dict]. *)
Fixpoint dict_getitem (d : dict) (key : string) : result pyval :=
  match d with
  | [] => Raise KeyError
  | (k, v) :: d' => if decide (k = key) then Ok v else dict_getitem d' key
  end.

(** [v.get(key, default)] on an arbitrary value decoded from JSON: of the
    JSON types only [dict] has a [get] method. *)
Definition py_get (v : pyval) (key : string) (dflt : pyval) : result pyval :=
  match v with
  | VDict d => Ok (dict_get d key dflt)
  | _ => Raise AttributeError
  end.

(** ** Data frames *)

Record DataFrame := Frame { columns : list string; rows : list (list pyval) }.

(** [df[c]]: the column labelled [c]. *)
Definition df_getitem (df : DataFrame) (c : string) : result (list pyval) :=
  match list_find (λ x, x = c) (columns df) with
  | Some (i, _) => Ok ((λ r, default (VFloat nan) (r !! i)) <$> rows df)
  | None => Raise KeyError
  end.

(** One cell of [series == x], [x] a [Timestamp] or [NaT]. *)
Definition cell_eq (x : option Timestamp) (c : pyval) : bool :=
  match c, x with
  | VTimestamp t, Some t' => bool_decide (t = t')
  | _, _ => false
  end.

(** [series == x] *)
Definition series_eq (col : list pyval) (x : option Timestamp) : list bool :=
  cell_eq x <$> col.

Fixpoint select_rows (rs : list (list pyval)) (mask : list bool) : list (list pyval) :=
  match rs, mask with
  | r :: rs', b :: mask' =>
      if b then r :: select_rows rs' mask' else select_rows rs' mask'
  | _, _ => []
  end.

(** [df[mask]] *)
Definition df_mask (df : DataFrame) (mask : list bool) : DataFrame :=
  {| columns := columns df; rows := select_rows (rows df) mask |}.

(** [df.iloc[0]]: the first row, labelled by the columns. *)
Definition iloc0 (df : DataFrame) : result dict :=
  match rows df with
  | [] => Raise IndexError
  | r :: _ => Ok (zip (columns df) r)
  end.

(** [row.get(key)] on a row. *)
Definition series_get (row : dict) (key : string) : pyval :=
  dict_get row key VNone.

(** [pd.DataFrame([entry])] *)
Definition frame_of_record (entry : dict) : DataFrame :=
  {| columns := entry.*1; rows := [entry.*2] |}.

(** ** The world outside the script

    What the remote services answer, and the library parsers whose details
    play no role here.  Every field gives the outcome of one call of the
    source. *)

(** [requests.Response]: the status code and the outcome of [resp.json()]. *)
Record Response := { status_code : Z; json : result pyval }.

Record World := {
  (** [datetime.strptime(s, fmt)] *)
  strptime : string → string → result Timestamp;
  (** [pd.to_datetime(v)] for a scalar [v] that is neither a date nor a
      [Timestamp]; [None] is [NaT] *)
  to_datetime_scalar : pyval → result (option Timestamp);
  (** [Stations().nearby(lat, lon).fetch(1)]: the index (station ids) of
      the frame it returns; the frame is [empty] when it has no row *)
  stations_nearby : float → float → result (list string);
  (** [Daily(station, start, end).fetch()] *)
  daily_fetch : string → pyval → pyval → result DataFrame;
  (** [requests.get(url, params=params)] *)
  requests_get : string → dict → result Response;
  (** [pd.read_csv(url, parse_dates=cols, dayfirst=b)] *)
  read_csv : string → list string → bool → result DataFrame;
  (** the error, if any, that opening a path for writing raises *)
  write_error : string → option Exception
}.

(** [resp.raise_for_status()]: requests raises [HTTPError] for the client
    errors 400..499 and the server errors 500..599. *)
Definition raise_for_status (resp : Response) : result unit :=
  if ((400 <=? status_code resp) && (status_code resp <? 600))%Z
  then Raise (HTTPError (status_code resp))
  else Ok tt.

(** [pd.to_datetime(v)]: a date becomes the [Timestamp] of its midnight. *)
Definition pd_to_datetime (w : World) (v : pyval) : result (option Timestamp) :=
  match v with
  | VDate d => Ok (Some (Ts d 0))
  | VTimestamp t => Ok (Some t)
  | _ => to_datetime_scalar w v
  end.

(** ** Konfiguration *)

Definition POLLENSTIFTUNG_API_URL : string :=
  "https://www.pollenstiftung.de/services/forecast".

Definition DWD_POLLEN_BASE_URL : string :=
  "https://opendata.dwd.de/climate_environment/health/pollen_stations".

(** ** Funktionen *)

(** [get_weather(dt, lat, lon)]: [None] or the frame of daily data. *)
Definition get_weather (w : World) (dt : pyval) (lat lon : float)
  : result (option DataFrame) :=
  dt ← match dt with
       | VStr s => t ← strptime w s "%Y-%m-%d"; mret (VDate (ts_date t))
       | VTimestamp t => mret (VDate (ts_date t))
       | _ => mret dt
       end;
  station ← stations_nearby w lat lon;
  match station with
  | [] => mret None
  | station :: _ =>
      data ← daily_fetch w station dt dt;
      mret (Some data)
  end.

(** The dictionary of the two [except] branches. *)
Definition all_None : dict :=
  [("birke", VNone); ("gräser", VNone); ("ambrosia", VNone)].

(** [data.get(name, {}).get('index')] *)
Definition forecast_index (data : pyval) (name : string) : result pyval :=
  o ← py_get data name (VDict []);
  py_get o "index" VNone.

(** [get_pollenstiftung(lat, lon)] *)
Definition get_pollenstiftung (w : World) (lat lon : float) : result dict :=
  try_except
    (let params := [("lat", VFloat lat); ("lng", VFloat lon)] in
     resp ← requests_get w POLLENSTIFTUNG_API_URL params;
     _ ← raise_for_status resp;
     data ← json resp;
     birke ← forecast_index data "birke";
     graeser ← forecast_index data "gräser";
     ambrosia ← forecast_index data "ambrosia";
     mret [("birke", birke); ("gräser", graeser); ("ambrosia", ambrosia)])
    (mret all_None).

(** The URL that [get_dwd_pollen] builds for a station. *)
Definition dwd_url (station_id : string) : string :=
  DWD_POLLEN_BASE_URL +:+ "/" +:+ station_id +:+ ".csv".

(** [get_dwd_pollen(lat, lon, dt)] *)
Definition get_dwd_pollen (w : World) (lat lon : float) (dt : pyval) : result dict :=
  let station_id := "001" in
  let url := dwd_url station_id in
  try_except
    (df ← read_csv w url ["date"] true;
     col ← df_getitem df "date";
     ts ← pd_to_datetime w dt;
     row ← iloc0 (df_mask df (series_eq col ts));
     mret [("birke", series_get row "Birke");
           ("gräser", series_get row "Gräser");
           ("ambrosia", series_get row "Ambrosia")])
    (mret all_None).

(** ** Run-time state: the files on disk and what Streamlit has shown *)

Inductive ui_event :=
| UiTitle (s : string)
| UiMarkdown (s : string)
| UiSubheader (s : string)
| UiWrite (label : string) (v : pyval)
| UiSuccess (s : string)
| UiFrame (df : DataFrame).

(** A CSV file is the list of its rows, a row the list of its cells. *)
Record State := {
  files : gmap string (list (list pyval));
  ui : list ui_event
}.

(** Statements of the script: they read and change the state and may raise. *)
Definition M (A : Type) : Type := State → result A * State.

#[global] Instance M_ret : MRet M := λ A a s, (Ok a, s).

#[global] Instance M_bind : MBind M := λ A B f m s,
  match m s with
  | (Ok a, s') => f a s'
  | (Raise e, s') => (Raise e, s')
  end.

Definition lift {A} (r : result A) : M A := λ s, (r, s).

Definition emit (e : ui_event) : M unit := λ s,
  (Ok tt, {| files := files s; ui := ui s ++ [e] |}).

(** [os.path.exists(file)] *)
Definition path_exists (file : string) : M bool := λ s,
  (Ok (bool_decide (is_Some (files s !! file))), s).

Inductive write_mode := ModeW | ModeA.

(** The rows [to_csv(..., index=False)] writes. *)
Definition csv_rows (df : DataFrame) (header : bool) : list (list pyval) :=
  (if header then [VStr <$> columns df] else []) ++ rows df.

(** [df.to_csv(file, mode=mode, header=header, index=False)]: mode ['w']
    replaces the content, mode ['a'] writes after it. *)
Definition to_csv (w : World) (df : DataFrame) (file : string)
    (mode : write_mode) (header : bool) : M unit := λ s,
  match write_error w file with
  | Some e => (Raise e, s)
  | None =>
      let old := match mode with
                 | ModeW => []
                 | ModeA => default [] (files s !! file)
                 end in
      (Ok tt, {| files := <[file := (old ++ csv_rows df header)%list]> (files s);
                 ui := ui s |})
  end.

(** ** Streamlit UI *)

(** The values of the widgets in one run of the script. *)
Record Inputs := {
  in_dt : date;
  in_lat : float;
  in_lon : float;
  in_source : string;
  in_fetch : bool;
  in_fatigue : Z;
  in_runnynose : Z;
  in_sorethroat : Z;
  in_notes : string;
  in_save : bool
}.

(** [weather[key]] *)
Definition weather_getitem (weather : option DataFrame) (key : string)
  : result pyval :=
  match weather with
  | None => Raise TypeError
  | Some df => col ← df_getitem df key; mret (VSeries col)
  end.

(** The dictionary [entry] of the save block. *)
Definition make_entry (i : Inputs) (weather : option DataFrame) (pollen : dict)
  : result dict :=
  tavg ← weather_getitem weather "tavg";
  rhum ← weather_getitem weather "rhum";
  prcp ← weather_getitem weather "prcp";
  birke ← dict_getitem pollen "birke";
  graeser ← dict_getitem pollen "gräser";
  ambrosia ← dict_getitem pollen "ambrosia";
  mret [("Datum", VDate (in_dt i));
        ("lat", VFloat (in_lat i)); ("lon", VFloat (in_lon i));
        ("tavg", tavg); ("rhum", rhum); ("prcp", prcp);
        ("birke", birke); ("gräser", graeser); ("ambrosia", ambrosia);
        ("muedigkeit", VInt (in_fatigue i));
        ("nase_laufen", VInt (in_runnynose i));
        ("halsweh", VInt (in_sorethroat i));
        ("anmerkungen", VStr (in_notes i))].

Definition store_file : string := "allergie_tagebuch.csv".

(** The save block from [df = pd.DataFrame([entry])] on. *)
Definition save_entry (w : World) (entry : dict) : M unit :=
  let df := frame_of_record entry in
  let file := store_file in
  ex ← path_exists file;
  (if ex : bool
   then to_csv w df file ModeA false
   else to_csv w df file ModeW true);;
  emit (UiSuccess "✅ Eintrag gespeichert in `allergie_tagebuch.csv`");;
  emit (UiFrame df).

(** The script from [st.title] to its end. *)
Definition script (w : World) (i : Inputs) : M unit :=
  emit (UiTitle "🌿 Allergie-Tagebuch");;
  emit (UiMarkdown "Diese App ruft Wetter- und Pollen­daten (Meteostat, Pollenstiftung, DWD) ab und speichert deine Symptome.");;
  let dt := VDate (in_dt i) in
  let lat := in_lat i in
  let lon := in_lon i in
  if in_fetch i then
    weather ← lift (get_weather w dt lat lon);
    emit (UiSubheader "🌦️ Wetterdaten (Meteostat)");;
    tavg ← lift (weather_getitem weather "tavg");
    emit (UiWrite "Temperatur (°C): " tavg);;
    rhum ← lift (weather_getitem weather "rhum");
    emit (UiWrite "Luftfeuchte (%): " rhum);;
    prcp ← lift (weather_getitem weather "prcp");
    emit (UiWrite "Niederschlag (mm): " prcp);;
    pollen ← (if decide (in_source i = "Pollenstiftung.de")
              then pollen ← lift (get_pollenstiftung w lat lon);
                   emit (UiSubheader "🌸 Pollendaten (Pollenstiftung.de)");;
                   mret pollen
              else pollen ← lift (get_dwd_pollen w lat lon dt);
                   emit (UiSubheader "🌸 Pollendaten (DWD Open Data)");;
                   mret pollen);
    birke ← lift (dict_getitem pollen "birke");
    emit (UiWrite "Birke: " birke);;
    graeser ← lift (dict_getitem pollen "gräser");
    emit (UiWrite "Gräser: " graeser);;
    ambrosia ← lift (dict_getitem pollen "ambrosia");
    emit (UiWrite "Ambrosia: " ambrosia);;
    emit (UiSubheader "📝 Symptome eingeben");;
    if in_save i then
      entry ← lift (make_entry i weather pollen);
      save_entry w entry
    else mret tt
  else mret tt.

(** The script runs once for each entry that is saved; the files stay. *)
Fixpoint save_all (w : World) (entries : list dict) : M unit :=
  match entries with
  | [] => mret tt
  | entry :: entries => save_entry w entry;; save_all w entries
  end.

(** ** Vocabulary of the statements *)

(** A row is on the requested day when its cell under the label [date] is
    that [Timestamp]. *)
Definition row_on (df : DataFrame) (ts : Timestamp) (r : list pyval) : Prop :=
  series_get (zip (columns df) r) "date" = VTimestamp ts.

(** The test that the mask [df['date'] == x] makes on one row. *)
Definition row_matches (df : DataFrame) (x : option Timestamp) (r : list pyval) : bool :=
  cell_eq x (series_get (zip (columns df) r) "date").

(** The keys of [entry], in the order of the dictionary display. *)
Definition entry_columns : list string :=
  ["Datum"; "lat"; "lon"; "tavg"; "rhum"; "prcp"; "birke"; "gräser";
   "ambrosia"; "muedigkeit"; "nase_laufen"; "halsweh"; "anmerkungen"].

(** [entry] is a dictionary that the save block assembles. *)
Definition made_entry (entry : dict) : Prop :=
  ∃ i weather pollen, make_entry i weather pollen = Ok entry.

(** The keys of a pollen reading. *)
Definition pollen_keys : list string := ["birke"; "gräser"; "ambrosia"].

Definition is_dict (v : pyval) : bool :=
  match v with
  | VDict _ => true
  | _ => false
  end.

(** The ways in which the fetch from Pollenstiftung.de fails: the request
    raises, the status is an error status, the body is not JSON, or the
    decoded body does not have the expected shape (it is no object, or the
    entry of an allergen is no object). *)
Inductive fetch_fails (w : World) (lat lon : float) : Prop :=
| network_error (e : Exception) :
    requests_get w POLLENSTIFTUNG_API_URL
      [("lat", VFloat lat); ("lng", VFloat lon)] = Raise e →
    fetch_fails w lat lon
| error_status (resp : Response) :
    requests_get w POLLENSTIFTUNG_API_URL
      [("lat", VFloat lat); ("lng", VFloat lon)] = Ok resp →
    400 ≤ status_code resp < 600 →
    fetch_fails w lat lon
| unparseable_body (resp : Response) (e : Exception) :
    requests_get w POLLENSTIFTUNG_API_URL
      [("lat", VFloat lat); ("lng", VFloat lon)] = Ok resp →
    json resp = Raise e →
    fetch_fails w lat lon
| body_no_object (resp : Response) (data : pyval) :
    requests_get w POLLENSTIFTUNG_API_URL
      [("lat", VFloat lat); ("lng", VFloat lon)] = Ok resp →
    json resp = Ok data →
    is_dict data = false →
    fetch_fails w lat lon
| entry_no_object (resp : Response) (d : dict) (name : string) :
    requests_get w POLLENSTIFTUNG_API_URL
      [("lat", VFloat lat); ("lng", VFloat lon)] = Ok resp →
    json resp = Ok (VDict d) →
    name ∈ pollen_keys →
    is_dict (dict_get d name (VDict [])) = false →
    fetch_fails w lat lon.

(** The failures as the specification words them: a network error, a
    status outside 200..299, or an unparseable or malformed body. *)
Inductive fetch_fails_spec (w : World) (lat lon : float) : Prop :=
| spec_network_error (e : Exception) :
    requests_get w POLLENSTIFTUNG_API_URL
      [("lat", VFloat lat); ("lng", VFloat lon)] = Raise e →
    fetch_fails_spec w lat lon
| spec_non_2xx (resp : Response) :
    requests_get w POLLENSTIFTUNG_API_URL
      [("lat", VFloat lat); ("lng", VFloat lon)] = Ok resp →
    ¬ (200 ≤ status_code resp < 300) →
    fetch_fails_spec w lat lon
| spec_unparseable_body (resp : Response) (e : Exception) :
    requests_get w POLLENSTIFTUNG_API_URL
      [("lat", VFloat lat); ("lng", VFloat lon)] = Ok resp →
    json resp = Raise e →
    fetch_fails_spec w lat lon
| spec_body_no_object (resp : Response) (data : pyval) :
    requests_get w POLLENSTIFTUNG_API_URL
      [("lat", VFloat lat); ("lng", VFloat lon)] = Ok resp →
    json resp = Ok data →
    is_dict data = false →
    fetch_fails_spec w lat lon
| spec_entry_no_object (resp : Response) (d : dict) (name : string) :
    requests_get w POLLENSTIFTUNG_API_URL
      [("lat", VFloat lat); ("lng", VFloat lon)] = Ok resp →
    json resp = Ok (VDict d) →
    name ∈ pollen_keys →
    is_dict (dict_get d name (VDict [])) = false →
    fetch_fails_spec w lat lon.

(** ** Sample worlds *)

(** A world in which the station directory answers [st], Meteostat
    [daily], Pollenstiftung.de [resp], the DWD file of station 001 is [csv]
    and opening the diary for writing raises [werr]. *)
Definition sample_world (st : result (list string)) (daily : result DataFrame)
    (resp : result Response) (csv : result DataFrame)
    (werr : option Exception) : World :=
  {| strptime := λ _ _, Raise ValueError;
     to_datetime_scalar := λ _, Raise ValueError;
     stations_nearby := λ _ _, st;
     daily_fetch := λ _ _ _, daily;
     requests_get := λ _ _, resp;
     read_csv := λ url _ _,
       if decide (url = dwd_url "001") then csv else Raise URLError;
     write_error := λ file,
       if decide (file = store_file) then werr else None |}.

Definition may_1 : date := Date 2024 5 1.

(** The default position of the sidebar. *)
Definition default_lat : float := 51.16.
Definition default_lon : float := 10.45.

Definition sample_dataset : DataFrame :=
  Frame ["date"; "Birke"; "Gräser"; "Ambrosia"]
        [[VTimestamp (Ts (Date 2024 4 30) 0); VInt 2; VInt 0; VInt 0];
         [VTimestamp (Ts may_1 0); VInt 3; VInt 1; VInt 0];
         [VTimestamp (Ts (Date 2024 5 2) 0); VInt 1; VInt 2; VInt 0]].

(** The same file with a second, different row for the first of May. *)
Definition repeated_dataset : DataFrame :=
  Frame ["date"; "Birke"; "Gräser"; "Ambrosia"]
        [[VTimestamp (Ts (Date 2024 4 30) 0); VInt 2; VInt 0; VInt 0];
         [VTimestamp (Ts may_1 0); VInt 3; VInt 1; VInt 0];
         [VTimestamp (Ts may_1 0); VInt 0; VInt 2; VInt 1]].

Definition dwd_world (csv : DataFrame) : World :=
  sample_world (Raise ConnectionError) (Raise ConnectionError)
               (Raise ConnectionError) (Ok csv) None.

(** A forecast as Pollenstiftung.de is expected to send it. *)
Definition sample_forecast : pyval :=
  VDict [("birke", VDict [("index", VInt 3)]);
         ("gräser", VDict [("index", VInt 1)]);
         ("ambrosia", VDict [("index", VInt 0)])].

(** Pollenstiftung.de answers with the status [status] and the body [body]. *)
Definition forecast_world (status : Z) (body : result pyval) : World :=
  sample_world (Raise ConnectionError) (Raise ConnectionError)
               (Ok {| status_code := status; json := body |})
               (Raise URLError) None.

Definition empty_state : State := {| files := ∅; ui := [] |}.

(** One day of Meteostat data. *)
Definition sample_daily : DataFrame :=
  Frame ["tavg"; "rhum"; "prcp"] [[VFloat 12.5; VFloat 60; VFloat 0]].

(** Every service answers; opening the diary for writing raises [werr]. *)
Definition online_world (werr : option Exception) : World :=
  sample_world (Ok ["10381"]) (Ok sample_daily)
               (Ok {| status_code := 200; json := Ok sample_forecast |})
               (Ok sample_dataset) werr.

(** The station directory knows no station near the position. *)
Definition no_station_world : World :=
  sample_world (Ok []) (Ok sample_daily)
               (Ok {| status_code := 200; json := Ok sample_forecast |})
               (Ok sample_dataset) None.

(** The station directory cannot be reached. *)
Definition no_network_world : World :=
  sample_world (Raise ConnectionError) (Raise ConnectionError)
               (Raise ConnectionError) (Raise URLError) None.

(** Both buttons pressed, with the default values of the widgets. *)
Definition sample_inputs (notes : string) : Inputs :=
  {| in_dt := may_1; in_lat := default_lat; in_lon := default_lon;
     in_source := "DWD Open Data"; in_fetch := true;
     in_fatigue := 5; in_runnynose := 0; in_sorethroat := 0;
     in_notes := notes; in_save := true |}.

Definition sample_entry (notes : string) : dict :=
  [("Datum", VDate may_1);
   ("lat", VFloat default_lat); ("lon", VFloat default_lon);
   ("tavg", VSeries [VFloat 12.5]); ("rhum", VSeries [VFloat 60]);
   ("prcp", VSeries [VFloat 0]);
   ("birke", VInt 3); ("gräser", VInt 1); ("ambrosia", VInt 0);
   ("muedigkeit", VInt 5); ("nase_laufen", VInt 0); ("halsweh", VInt 0);
   ("anmerkungen", VStr notes)].

(** ** Vocabulary of the further properties *)

(** The index that a decoded forecast gives for an allergen: [None] when the
    allergen or its [index] is missing. *)
Definition index_of (d : dict) (name : string) : pyval :=
  match dict_get d name (VDict []) with
  | VDict entry => dict_get entry "index" VNone
  | _ => VNone
  end.

(** The reading of a row of the DWD file. *)
Definition reading_of_row (df : DataFrame) (r : list pyval) : dict :=
  [("birke", series_get (zip (columns df) r) "Birke");
   ("gräser", series_get (zip (columns df) r) "Gräser");
   ("ambrosia", series_get (zip (columns df) r) "Ambrosia")].

(** The call that the script makes for the source chosen in the sidebar. *)
Definition chosen_pollen (w : World) (i : Inputs) : result dict :=
  if decide (in_source i = "Pollenstiftung.de")
  then get_pollenstiftung w (in_lat i) (in_lon i)
  else get_dwd_pollen w (in_lat i) (in_lon i) (VDate (in_dt i)).

(** The state after Streamlit has shown [evs]. *)
Definition add_ui (s : State) (evs : list ui_event) : State :=
  {| files := files s; ui := ui s ++ evs |}.

Definition is_success (ev : ui_event) : bool :=
  match ev with
  | UiSuccess _ => true
  | _ => false
  end.

(** The columns of the weather frame that the script reads. *)
Definition weather_keys : list string := ["tavg"; "rhum"; "prcp"].

(** The errors that stop a run before the save block: the weather lookup
    raises, or the lookup of one of the three columns in its result does. *)
Definition weather_error (w : World) (i : Inputs) (e : Exception) : Prop :=
  get_weather w (VDate (in_dt i)) (in_lat i) (in_lon i) = Raise e ∨
  ∃ weather key,
    get_weather w (VDate (in_dt i)) (in_lat i) (in_lon i) = Ok weather ∧
    key ∈ weather_keys ∧
    weather_getitem weather key = Raise e.

(** A forecast in which the grasses are missing and the ambrosia entry has
    no index. *)
Definition partial_forecast : pyval :=
  VDict [("birke", VDict [("index", VInt 2)]);
         ("ambrosia", VDict [("level", VStr "low")])].

(** A file of the DWD without the column for ambrosia. *)
Definition narrow_dataset : DataFrame :=
  Frame ["date"; "Birke"; "Gräser"]
        [[VTimestamp (Ts may_1 0); VInt 3; VInt 1]].

(** A file whose only row of the first of May is stamped at noon. *)
Definition noon_dataset : DataFrame :=
  Frame ["date"; "Birke"; "Gräser"; "Ambrosia"]
        [[VTimestamp (Ts may_1 43200000000000); VInt 3; VInt 1; VInt 0]].

(** A file without the column of the dates. *)
Definition undated_dataset : DataFrame :=
  Frame ["Birke"; "Gräser"; "Ambrosia"] [[VInt 3; VInt 1; VInt 0]].

(** Daily data as Meteostat sends it, without the relative humidity. *)
Definition dry_daily : DataFrame :=
  Frame ["tavg"; "tmin"; "tmax"; "prcp"]
        [[VFloat 12.5; VFloat 8; VFloat 17; VFloat 0]].

(** A world that parses dates written as [2024-05-01]. *)
Definition parsing_world : World :=
  {| strptime := λ s _,
       if decide (s = "2024-05-01") then Ok (Ts may_1 0) else Raise ValueError;
     to_datetime_scalar := λ _, Raise ValueError;
     stations_nearby := λ _ _, Ok ["10381"];
     daily_fetch := λ _ start _,
       match start with
       | VDate _ => Ok sample_daily
       | _ => Raise TypeError
       end;
     requests_get := λ _ _, Raise ConnectionError;
     read_csv := λ _ _ _, Raise URLError;
     write_error := λ _, None |}.

(** [s1] is [s] after Streamlit has shown some more elements, none of them
    the success message; the files are those of [s]. *)
Definition displays (s s1 : State) : Prop :=
  files s1 = files s ∧
  ∃ evs, ui s1 = (ui s ++ evs)%list ∧ Forall (λ ev, is_success ev = false) evs.

(** [w] with other answers of Pollenstiftung.de. *)
Definition with_requests_get (w : World)
    (f : string → dict → result Response) : World :=
  {| strptime := strptime w;
     to_datetime_scalar := to_datetime_scalar w;
     stations_nearby := stations_nearby w;
     daily_fetch := daily_fetch w;
     requests_get := f;
     read_csv := read_csv w;
     write_error := write_error w |}.

(** [w] with other answers of the DWD server. *)
Definition with_read_csv (w : World)
    (f : string → list string → bool → result DataFrame) : World :=
  {| strptime := strptime w;
     to_datetime_scalar := to_datetime_scalar w;
     stations_nearby := stations_nearby w;
     daily_fetch := daily_fetch w;
     requests_get := requests_get w;
     read_csv := f;
     write_error := write_error w |}.

(** Meteostat sends its daily data without the relative humidity. *)
Definition dry_world : World :=
  sample_world (Ok ["10381"]) (Ok dry_daily)
               (Ok {| status_code := 200; json := Ok sample_forecast |})
               (Ok sample_dataset) None.

(** Pollenstiftung.de sends the forecast with the missing parts. *)
Definition partial_world : World :=
  sample_world (Ok ["10381"]) (Ok sample_daily)
               (Ok {| status_code := 200; json := Ok partial_forecast |})
               (Raise URLError) None.

(** Both buttons pressed, Pollenstiftung.de chosen. *)
Definition pollenstiftung_inputs : Inputs :=
  {| in_dt := may_1; in_lat := default_lat; in_lon := default_lon;
     in_source := "Pollenstiftung.de"; in_fetch := true;
     in_fatigue := 7; in_runnynose := 4; in_sorethroat := 1;
     in_notes := "Birken"; in_save := true |}.

(** A diary that holds one entry. *)
Definition diary_state : State :=
  {| files := {[ store_file :=
                   [VStr <$> entry_columns; (sample_entry "gestern").*2] ]};
     ui := [] |}.

(** * Properties *)

(** ** Rows, labels and masks *)

Lemma result_bind_Ok {A B} (f : A → result B) (a : A) : Ok a ≫= f = f a.
Proof. reflexivity. Qed.

(** Looking a label up in a labelled row is reading the cell at the position
    of the first column with that label. *)
Lemma dict_get_zip (cols : list string) (r : list pyval) (c : string) (dflt : pyval) :
  dict_get (zip cols r) c dflt =
  match list_find (λ x, x = c) cols with
  | Some (i, _) => default dflt (r !! i)
  | None => dflt
  end.
Proof.
  revert r. induction cols as [|x cols IH]; intros r; [done|].
  destruct r as [|v r]; simpl.
  - case_decide; [done|]. by destruct (list_find _ cols) as [[i y]|].
  - case_decide; [done|]. rewrite IH.
    by destruct (list_find _ cols) as [[i y]|].
Qed.

Lemma cell_eq_default (x : option Timestamp) (o : option pyval) :
  cell_eq x (default (VFloat nan) o) = cell_eq x (default VNone o).
Proof. by destruct o, x. Qed.

Lemma cell_eq_true (x : option Timestamp) (c : pyval) :
  cell_eq x c = true ↔ ∃ ts, x = Some ts ∧ c = VTimestamp ts.
Proof.
  split.
  - destruct c, x as [t'|]; simpl; try discriminate.
    intros H%bool_decide_eq_true. subst. eauto.
  - intros (ts & -> & ->). simpl. by apply bool_decide_eq_true.
Qed.

Lemma row_matches_on (df : DataFrame) (ts : Timestamp) (r : list pyval) :
  row_matches df (Some ts) r = true ↔ row_on df ts r.
Proof.
  unfold row_matches, row_on. rewrite cell_eq_true. split.
  - intros (ts' & [= <-] & H). done.
  - eauto.
Qed.

Lemma select_rows_map (f : list pyval → bool) (rs : list (list pyval)) :
  select_rows rs (f <$> rs) = List.filter f rs.
Proof.
  induction rs as [|r rs IH]; [done|]. simpl. by rewrite <- IH.
Qed.

(** The rows that [df[df['date'] == x]] keeps. *)
Lemma df_mask_rows (df : DataFrame) (col : list pyval) (x : option Timestamp) :
  df_getitem df "date" = Ok col →
  rows (df_mask df (series_eq col x)) = List.filter (row_matches df x) (rows df).
Proof.
  unfold df_getitem, df_mask, series_eq. simpl.
  destruct (list_find _ (columns df)) as [[i y]|] eqn:Hfind; [|done].
  intros [= <-]. rewrite <- list_fmap_compose, <- select_rows_map.
  f_equal. apply list_fmap_ext. intros _ r _. simpl.
  unfold row_matches, series_get. rewrite dict_get_zip, Hfind.
  apply cell_eq_default.
Qed.

Lemma filter_first_match {A} (f : A → bool) (pre post : list A) (r : A) :
  Forall (λ a, f a = false) pre → f r = true →
  List.filter f (pre ++ r :: post) = r :: List.filter f post.
Proof.
  intros Hpre Hr. induction Hpre as [|a pre Ha _ IH]; simpl.
  - by rewrite Hr.
  - by rewrite Ha.
Qed.

Lemma filter_no_match {A} (f : A → bool) (l : list A) :
  Forall (λ a, f a = false) l → List.filter f l = [].
Proof.
  induction 1 as [|a l Ha _ IH]; [done|]. simpl. by rewrite Ha.
Qed.

(** ** The DWD provider *)

Section dwd_provider.
Context (w : World) (lat lon : float) (dt : pyval).
Context (ts : Timestamp) (df : DataFrame).

(** The file of station 001 parses, and the requested day is [ts]. *)
Hypothesis Hread : read_csv w (dwd_url "001") ["date"] true = Ok df.
Hypothesis Hts : pd_to_datetime w dt = Ok (Some ts).

Lemma row_on_has_date_column (r : list pyval) :
  row_on df ts r → ∃ col, df_getitem df "date" = Ok col.
Proof.
  unfold row_on, series_get, df_getitem. rewrite dict_get_zip.
  destruct (list_find _ (columns df)) as [[i y]|]; [eauto|done].
Qed.

Lemma not_row_on_matches (l : list (list pyval)) :
  Forall (λ r, ¬ row_on df ts r) l →
  Forall (λ r, row_matches df (Some ts) r = false) l.
Proof.
  intros H. eapply Forall_impl; [exact H|]. intros r Hr. simpl in Hr.
  destruct (row_matches df (Some ts) r) eqn:E; [|done].
  by apply row_matches_on in E.
Qed.

(** When some row is on the requested day, the result is read from the
    first such row. *)
Lemma get_dwd_pollen_first_match (pre post : list (list pyval))
    (r : list pyval) :
  rows df = (pre ++ r :: post)%list →
  Forall (λ r', ¬ row_on df ts r') pre →
  row_on df ts r →
  get_dwd_pollen w lat lon dt =
    Ok [("birke", series_get (zip (columns df) r) "Birke");
        ("gräser", series_get (zip (columns df) r) "Gräser");
        ("ambrosia", series_get (zip (columns df) r) "Ambrosia")].
Proof.
  intros Hrows Hpre Hr.
  destruct (row_on_has_date_column _ Hr) as [col Hcol].
  unfold get_dwd_pollen. cbv zeta.
  rewrite Hread, result_bind_Ok, Hcol, result_bind_Ok, Hts, result_bind_Ok.
  unfold iloc0. rewrite (df_mask_rows _ _ _ Hcol), Hrows.
  rewrite filter_first_match;
    [done | by apply not_row_on_matches | by apply row_matches_on].
Qed.

(** When no row is on the requested day, [iloc[0]] raises and the
    [except] branch answers. *)
Lemma get_dwd_pollen_no_match :
  Forall (λ r, ¬ row_on df ts r) (rows df) →
  get_dwd_pollen w lat lon dt = Ok all_None.
Proof.
  intros Hnone.
  unfold get_dwd_pollen. cbv zeta. rewrite Hread, result_bind_Ok.
  destruct (df_getitem df "date") as [col|e] eqn:Hcol; [|done].
  rewrite result_bind_Ok, Hts, result_bind_Ok.
  unfold iloc0. rewrite (df_mask_rows _ _ _ Hcol).
  rewrite filter_no_match; [done | by apply not_row_on_matches].
Qed.
End dwd_provider.

(** C3: when the file of the station parses and exactly one of its rows is
    on the requested day, [get_dwd_pollen] returns the values of that row
    under the columns [Birke], [Gräser] and [Ambrosia] as the entries
    [birke], [gräser] and [ambrosia]. *)
Theorem get_dwd_pollen_single_row (w : World) (lat lon : float) (dt : pyval)
    (ts : Timestamp) (df : DataFrame) (pre post : list (list pyval))
    (r : list pyval) :
  read_csv w (dwd_url "001") ["date"] true = Ok df →
  pd_to_datetime w dt = Ok (Some ts) →
  rows df = (pre ++ r :: post)%list →
  Forall (λ r', ¬ row_on df ts r') pre →
  row_on df ts r →
  Forall (λ r', ¬ row_on df ts r') post →
  get_dwd_pollen w lat lon dt =
    Ok [("birke", series_get (zip (columns df) r) "Birke");
        ("gräser", series_get (zip (columns df) r) "Gräser");
        ("ambrosia", series_get (zip (columns df) r) "Ambrosia")].
Proof.
  intros Hread Hts Hrows Hpre Hr _.
  by eapply get_dwd_pollen_first_match.
Qed.

Lemma get_dwd_pollen_single_row_witness :
  get_dwd_pollen (dwd_world sample_dataset) default_lat default_lon (VDate may_1) =
    Ok [("birke", VInt 3); ("gräser", VInt 1); ("ambrosia", VInt 0)].
Proof.
  apply (get_dwd_pollen_single_row (dwd_world sample_dataset) _ _ (VDate may_1)
           (Ts may_1 0) sample_dataset
           [[VTimestamp (Ts (Date 2024 4 30) 0); VInt 2; VInt 0; VInt 0]]
           [[VTimestamp (Ts (Date 2024 5 2) 0); VInt 1; VInt 2; VInt 0]]
           [VTimestamp (Ts may_1 0); VInt 3; VInt 1; VInt 0]).
  - reflexivity.
  - reflexivity.
  - reflexivity.
  - repeat constructor. intros H. vm_compute in H. discriminate H.
  - reflexivity.
  - repeat constructor. intros H. vm_compute in H. discriminate H.
Defined.

(** C4: when the file of the station parses and none of its rows is on the
    requested day, [get_dwd_pollen] returns the reading with the three
    values absent; it does not raise. *)
Theorem get_dwd_pollen_zero_rows (w : World) (lat lon : float) (dt : pyval)
    (ts : Timestamp) (df : DataFrame) :
  read_csv w (dwd_url "001") ["date"] true = Ok df →
  pd_to_datetime w dt = Ok (Some ts) →
  Forall (λ r, ¬ row_on df ts r) (rows df) →
  get_dwd_pollen w lat lon dt =
    Ok [("birke", VNone); ("gräser", VNone); ("ambrosia", VNone)].
Proof.
  intros Hread Hts Hnone.
  by rewrite (get_dwd_pollen_no_match w lat lon dt ts df Hread Hts).
Qed.

Lemma get_dwd_pollen_zero_rows_witness :
  get_dwd_pollen (dwd_world sample_dataset) default_lat default_lon
    (VDate (Date 2024 6 1)) =
    Ok [("birke", VNone); ("gräser", VNone); ("ambrosia", VNone)].
Proof.
  apply (get_dwd_pollen_zero_rows (dwd_world sample_dataset) _ _
           (VDate (Date 2024 6 1)) (Ts (Date 2024 6 1) 0) sample_dataset).
  - reflexivity.
  - reflexivity.
  - repeat constructor; intros H; vm_compute in H; discriminate H.
Defined.

(** C5: when more than one row of the file is on the requested day,
    [get_dwd_pollen] returns the values of the first of them in the order of
    the rows of the file. *)
Theorem get_dwd_pollen_first_of_many (w : World) (lat lon : float) (dt : pyval)
    (ts : Timestamp) (df : DataFrame) (pre post : list (list pyval))
    (r : list pyval) :
  read_csv w (dwd_url "001") ["date"] true = Ok df →
  pd_to_datetime w dt = Ok (Some ts) →
  rows df = (pre ++ r :: post)%list →
  Forall (λ r', ¬ row_on df ts r') pre →
  row_on df ts r →
  Exists (λ r', row_on df ts r') post →
  get_dwd_pollen w lat lon dt =
    Ok [("birke", series_get (zip (columns df) r) "Birke");
        ("gräser", series_get (zip (columns df) r) "Gräser");
        ("ambrosia", series_get (zip (columns df) r) "Ambrosia")].
Proof.
  intros Hread Hts Hrows Hpre Hr _.
  by eapply get_dwd_pollen_first_match.
Qed.

Lemma get_dwd_pollen_first_of_many_witness :
  get_dwd_pollen (dwd_world repeated_dataset) default_lat default_lon
    (VDate may_1) =
    Ok [("birke", VInt 3); ("gräser", VInt 1); ("ambrosia", VInt 0)].
Proof.
  apply (get_dwd_pollen_first_of_many (dwd_world repeated_dataset) _ _
           (VDate may_1) (Ts may_1 0) repeated_dataset
           [[VTimestamp (Ts (Date 2024 4 30) 0); VInt 2; VInt 0; VInt 0]]
           [[VTimestamp (Ts may_1 0); VInt 0; VInt 2; VInt 1]]
           [VTimestamp (Ts may_1 0); VInt 3; VInt 1; VInt 0]).
  - reflexivity.
  - reflexivity.
  - reflexivity.
  - repeat constructor. intros H. vm_compute in H. discriminate H.
  - reflexivity.
  - apply Exists_cons_hd. reflexivity.
Defined.

(** C9: [get_dwd_pollen] does not depend on the coordinates: the station is
    always 001, so two calls that get the same answer for the file of that
    station (and the same conversion of the date) return the same result,
    whatever the two positions are. *)
Theorem get_dwd_pollen_ignores_position (w1 w2 : World)
    (lat1 lon1 lat2 lon2 : float) (dt : pyval) :
  read_csv w1 (DWD_POLLEN_BASE_URL +:+ "/001.csv") ["date"] true =
    read_csv w2 (DWD_POLLEN_BASE_URL +:+ "/001.csv") ["date"] true →
  pd_to_datetime w1 dt = pd_to_datetime w2 dt →
  get_dwd_pollen w1 lat1 lon1 dt = get_dwd_pollen w2 lat2 lon2 dt.
Proof.
  intros Hcsv Hts. unfold get_dwd_pollen. cbv zeta.
  change (dwd_url "001") with (DWD_POLLEN_BASE_URL +:+ "/001.csv").
  by rewrite Hcsv, Hts.
Qed.

Lemma get_dwd_pollen_ignores_position_witness :
  get_dwd_pollen (dwd_world sample_dataset) default_lat default_lon (VDate may_1) =
  get_dwd_pollen
    (sample_world (Ok ["10381"]) (Raise Timeout) (Raise Timeout)
                  (Ok sample_dataset) None)
    (-33.87)%float 151.21%float (VDate may_1).
Proof.
  apply get_dwd_pollen_ignores_position; reflexivity.
Defined.

(** ** Both providers swallow every error *)

Lemma result_bind_inv {A B} (m : result A) (f : A → result B) (b : B) :
  m ≫= f = Ok b → ∃ a, m = Ok a ∧ f a = Ok b.
Proof. destruct m as [a|e]; [eauto|discriminate]. Qed.

Ltac bind_inv H :=
  repeat (apply result_bind_inv in H;
          let a := fresh "a" in
          let Ha := fresh "Ha" in
          destruct H as (a & Ha & H)).

(** A [try] whose body can only return dictionaries with the keys [ks], and
    whose [except] branch returns such a dictionary, returns one. *)
Lemma try_except_keys (body : result dict) (fallback : dict) (ks : list string) :
  (∀ d, body = Ok d → d.*1 = ks) →
  fallback.*1 = ks →
  ∃ d, try_except body (mret fallback) = Ok d ∧ d.*1 = ks.
Proof.
  intros Hbody Hfb. destruct body as [d|e]; simpl; eauto.
Qed.

Lemma get_pollenstiftung_keys (w : World) (lat lon : float) :
  ∃ d, get_pollenstiftung w lat lon = Ok d ∧ d.*1 = pollen_keys.
Proof.
  apply try_except_keys; [|done].
  intros d H. cbv zeta in H. bind_inv H. by injection H as <-.
Qed.

Lemma get_dwd_pollen_keys (w : World) (lat lon : float) (dt : pyval) :
  ∃ d, get_dwd_pollen w lat lon dt = Ok d ∧ d.*1 = pollen_keys.
Proof.
  apply try_except_keys; [|done].
  intros d H. bind_inv H. by injection H as <-.
Qed.

(** A dictionary with the three keys can be indexed by each of them. *)
Lemma pollen_keys_getitem (d : dict) (k : string) :
  d.*1 = pollen_keys → k ∈ pollen_keys → ∃ v, dict_getitem d k = Ok v.
Proof.
  intros Hd Hk.
  destruct d as [|[k1 v1] [|[k2 v2] [|[k3 v3] [|? ?]]]]; try discriminate Hd.
  injection Hd as -> -> ->.
  unfold pollen_keys in Hk. rewrite !elem_of_cons, elem_of_nil in Hk.
  destruct Hk as [->|[->|[->|[]]]]; simpl; eauto.
Qed.

(** C10: on every path, whether the fetch succeeds or fails, both
    [get_pollenstiftung] and [get_dwd_pollen] return a dictionary whose keys
    are exactly [birke], [gräser] and [ambrosia], so that indexing it by any
    of the three succeeds. *)
Theorem pollen_providers_three_keys (w : World) (lat lon : float) (dt : pyval) :
  (∃ d, get_pollenstiftung w lat lon = Ok d ∧
        d.*1 = ["birke"; "gräser"; "ambrosia"] ∧
        ∀ k, k ∈ d.*1 → ∃ v, dict_getitem d k = Ok v) ∧
  (∃ d, get_dwd_pollen w lat lon dt = Ok d ∧
        d.*1 = ["birke"; "gräser"; "ambrosia"] ∧
        ∀ k, k ∈ d.*1 → ∃ v, dict_getitem d k = Ok v).
Proof.
  split.
  - destruct (get_pollenstiftung_keys w lat lon) as (d & Hd & Hk).
    exists d. split_and!; [done..|].
    intros k Hin. rewrite Hk in Hin. by apply pollen_keys_getitem.
  - destruct (get_dwd_pollen_keys w lat lon dt) as (d & Hd & Hk).
    exists d. split_and!; [done..|].
    intros k Hin. rewrite Hk in Hin. by apply pollen_keys_getitem.
Qed.

(** ** Pollenstiftung.de *)

Lemma raise_for_status_error (resp : Response) :
  400 ≤ status_code resp < 600 →
  raise_for_status resp = Raise (HTTPError (status_code resp)).
Proof.
  intros [H1 H2]. unfold raise_for_status.
  apply Z.leb_le in H1. apply Z.ltb_lt in H2. by rewrite H1, H2.
Qed.

Lemma forecast_index_no_dict (data : pyval) (name : string) :
  is_dict data = false → forecast_index data name = Raise AttributeError.
Proof. by destruct data. Qed.

Lemma forecast_index_entry_no_dict (d : dict) (name : string) :
  is_dict (dict_get d name (VDict [])) = false →
  forecast_index (VDict d) name = Raise AttributeError.
Proof.
  intros H. unfold forecast_index. simpl.
  by destruct (dict_get d name (VDict [])).
Qed.

(** C2, amended: if the fetch from Pollenstiftung.de fails (the request
    raises, the status is an error status 400..599 such as 500, the body
    cannot be decoded or does not have the expected shape),
    [get_pollenstiftung] returns the reading with [birke], [gräser] and
    [ambrosia] absent, and raises nothing. *)
Theorem get_pollenstiftung_failure (w : World) (lat lon : float) :
  fetch_fails w lat lon →
  get_pollenstiftung w lat lon =
    Ok [("birke", VNone); ("gräser", VNone); ("ambrosia", VNone)].
Proof.
  intros Hfail. unfold get_pollenstiftung. cbv zeta.
  change (Ok [("birke", VNone); ("gräser", VNone); ("ambrosia", VNone)])
    with (Ok all_None).
  destruct Hfail as [e Hget | resp Hget Hst | resp e Hget Hjson
                    | resp data Hget Hjson Hdata
                    | resp d name Hget Hjson Hname Hentry];
    rewrite Hget; [done|rewrite result_bind_Ok..].
  - rewrite raise_for_status_error; [reflexivity|done].
  - destruct (raise_for_status resp); [|done].
    by rewrite result_bind_Ok, Hjson.
  - destruct (raise_for_status resp); [|done].
    rewrite result_bind_Ok, Hjson, result_bind_Ok.
    by rewrite (forecast_index_no_dict data "birke").
  - destruct (raise_for_status resp); [|done].
    rewrite result_bind_Ok, Hjson, result_bind_Ok.
    pose proof (forecast_index_entry_no_dict _ _ Hentry) as Hraise.
    unfold pollen_keys in Hname. rewrite !elem_of_cons, elem_of_nil in Hname.
    destruct Hname as [->|[->|[->|[]]]].
    + by rewrite Hraise.
    + destruct (forecast_index (VDict d) "birke"); [|done].
      by rewrite result_bind_Ok, Hraise.
    + destruct (forecast_index (VDict d) "birke"); [|done].
      rewrite result_bind_Ok.
      destruct (forecast_index (VDict d) "gräser"); [|done].
      by rewrite result_bind_Ok, Hraise.
Qed.

(** The scenario of the specification: the service answers 500. *)
Lemma get_pollenstiftung_failure_witness :
  get_pollenstiftung (forecast_world 500 (Ok sample_forecast))
    default_lat default_lon =
    Ok [("birke", VNone); ("gräser", VNone); ("ambrosia", VNone)].
Proof.
  apply get_pollenstiftung_failure.
  apply (error_status _ _ _ {| status_code := 500; json := Ok sample_forecast |}).
  - reflexivity.
  - simpl. lia.
Defined.

(** C2 as stated fails: a status outside 200..299 is not always an error for
    [raise_for_status].  On the answer 300 with a well-formed body the
    values of the body are returned. *)
Lemma get_pollenstiftung_status_300 :
  fetch_fails_spec (forecast_world 300 (Ok sample_forecast))
    default_lat default_lon ∧
  get_pollenstiftung (forecast_world 300 (Ok sample_forecast))
    default_lat default_lon =
    Ok [("birke", VInt 3); ("gräser", VInt 1); ("ambrosia", VInt 0)] ∧
  get_pollenstiftung (forecast_world 300 (Ok sample_forecast))
    default_lat default_lon ≠
    Ok [("birke", VNone); ("gräser", VNone); ("ambrosia", VNone)].
Proof.
  split_and!.
  - apply (spec_non_2xx _ _ _ {| status_code := 300; json := Ok sample_forecast |}).
    + reflexivity.
    + simpl. lia.
  - reflexivity.
  - discriminate.
Qed.

(** ** The entry *)

Lemma make_entry_inv (i : Inputs) (weather : option DataFrame) (pollen entry : dict) :
  make_entry i weather pollen = Ok entry →
  ∃ tavg rhum prcp birke graeser ambrosia,
    (weather_getitem weather "tavg" = Ok tavg ∧
     weather_getitem weather "rhum" = Ok rhum ∧
     weather_getitem weather "prcp" = Ok prcp) ∧
    (dict_getitem pollen "birke" = Ok birke ∧
     dict_getitem pollen "gräser" = Ok graeser ∧
     dict_getitem pollen "ambrosia" = Ok ambrosia) ∧
    entry =
      [("Datum", VDate (in_dt i));
       ("lat", VFloat (in_lat i)); ("lon", VFloat (in_lon i));
       ("tavg", tavg); ("rhum", rhum); ("prcp", prcp);
       ("birke", birke); ("gräser", graeser); ("ambrosia", ambrosia);
       ("muedigkeit", VInt (in_fatigue i));
       ("nase_laufen", VInt (in_runnynose i));
       ("halsweh", VInt (in_sorethroat i));
       ("anmerkungen", VStr (in_notes i))].
Proof.
  intros H. unfold make_entry in H. bind_inv H. injection H as <-.
  by repeat eexists.
Qed.

Lemma made_entry_columns (entry : dict) :
  made_entry entry → entry.*1 = entry_columns.
Proof.
  intros (i & weather & pollen & H).
  apply make_entry_inv in H as (? & ? & ? & ? & ? & ? & _ & _ & ->). done.
Qed.

Lemma made_entry_first_cell (entry : dict) :
  made_entry entry → ∃ d rest, entry.*2 = VDate d :: rest.
Proof.
  intros (i & weather & pollen & H).
  apply make_entry_inv in H as (? & ? & ? & ? & ? & ? & _ & _ & ->).
  by repeat eexists.
Qed.

(** ** The save block *)

Lemma save_entry_error (w : World) (entry : dict) (s : State) (e : Exception) :
  write_error w store_file = Some e →
  save_entry w entry s = (Raise e, s).
Proof.
  intros H. unfold save_entry, mbind, M_bind, path_exists, to_csv.
  rewrite H. by destruct (bool_decide _).
Qed.

Section diary_writable.
Context (w : World).

(** Opening the diary for writing raises nothing. *)
Hypothesis Hw : write_error w store_file = None.

Lemma save_entry_append (entry : dict) (s : State) (old : list (list pyval)) :
  files s !! store_file = Some old →
  ∃ s', save_entry w entry s = (Ok tt, s') ∧
        files s' = <[store_file := (old ++ [entry.*2])%list]> (files s).
Proof.
  intros Hold. unfold save_entry, mbind, M_bind, path_exists, to_csv.
  rewrite Hw, bool_decide_eq_true_2 by eauto.
  eexists. split; [reflexivity|]. cbn [files]. by rewrite Hold.
Qed.

Lemma save_entry_create (entry : dict) (s : State) :
  files s !! store_file = None →
  ∃ s', save_entry w entry s = (Ok tt, s') ∧
        files s' = <[store_file := [VStr <$> entry.*1; entry.*2]]> (files s).
Proof.
  intros Hnone. unfold save_entry, mbind, M_bind, path_exists, to_csv.
  rewrite Hw, bool_decide_eq_false_2 by (rewrite Hnone; by intros [? ?]).
  eexists. split; reflexivity.
Qed.

Lemma save_all_cons (entry : dict) (entries : list dict) (s s1 : State) :
  save_entry w entry s = (Ok tt, s1) →
  save_all w (entry :: entries) s = save_all w entries s1.
Proof.
  intros H. cbn [save_all]. unfold mbind, M_bind at 1. by rewrite H.
Qed.

(** Saving into a diary that exists adds the rows of the entries at its
    end. *)
Lemma save_all_append (entries : list dict) (s : State)
    (old : list (list pyval)) :
  files s !! store_file = Some old →
  ∃ s', save_all w entries s = (Ok tt, s') ∧
        files s' !! store_file =
          Some (old ++ ((λ e : dict, e.*2) <$> entries))%list.
Proof.
  revert s old.
  induction entries as [|entry entries IH]; intros s old Hold.
  - exists s. split; [done|]. by rewrite app_nil_r.
  - destruct (save_entry_append entry s old Hold) as (s1 & Hsave & Hfiles).
    destruct (IH s1 (old ++ [entry.*2])%list) as (s' & Hall & Hs').
    { rewrite Hfiles. apply lookup_insert_eq. }
    exists s'. split.
    + by rewrite (save_all_cons _ _ _ _ Hsave).
    + rewrite Hs'. by rewrite <- app_assoc.
Qed.
End diary_writable.

Lemma save_entry_Ok_inv (w : World) (entry : dict) (s s' : State) :
  save_entry w entry s = (Ok tt, s') → write_error w store_file = None.
Proof.
  intros H. destruct (write_error w store_file) as [e|] eqn:He; [|done].
  by rewrite (save_entry_error _ _ _ _ He) in H.
Qed.

(** A run with both buttons pressed whose fetches and lookups succeed
    reaches the save block with the files as they were. *)
Lemma script_reaches_save (w : World) (i : Inputs) (s : State)
    (weather : option DataFrame) (pollen entry : dict) :
  in_fetch i = true →
  in_save i = true →
  get_weather w (VDate (in_dt i)) (in_lat i) (in_lon i) = Ok weather →
  (if decide (in_source i = "Pollenstiftung.de")
   then get_pollenstiftung w (in_lat i) (in_lon i)
   else get_dwd_pollen w (in_lat i) (in_lon i) (VDate (in_dt i))) = Ok pollen →
  make_entry i weather pollen = Ok entry →
  ∃ s1, files s1 = files s ∧ script w i s = save_entry w entry s1.
Proof.
  intros Hfetch Hsave Hweather Hpollen Hentry.
  destruct (make_entry_inv _ _ _ _ Hentry)
    as (tavg & rhum & prcp & birke & graeser & ambrosia
        & (Ht & Hr & Hp) & (Hb & Hg & Ha) & _).
  unfold script. rewrite Hfetch, Hsave.
  unfold mbind at 1 2 3 4 5 6 7 8 9 10 11 12, M_bind, emit, lift.
  cbn beta iota zeta.
  rewrite Hweather. cbn beta iota zeta.
  rewrite Ht, Hr, Hp. cbn beta iota zeta.
  destruct (decide (in_source i = "Pollenstiftung.de"));
    unfold mbind, M_bind, mret, M_ret; cbn beta iota zeta;
    rewrite Hpollen; cbn beta iota zeta;
    rewrite Hb, Hg, Ha; cbn beta iota zeta;
    rewrite Hentry; cbn beta iota zeta;
    by eexists {| files := files s; ui := _ |}.
Qed.

(** C6: an error raised while the diary file is written leaves the save
    block as that error, and with it the run of the script that reached the
    block: nothing catches it, the block stops before the success message
    and no file is changed. *)
Theorem save_entry_error_propagates (w : World) (e : Exception) :
  write_error w store_file = Some e →
  (∀ (entry : dict) (s : State), save_entry w entry s = (Raise e, s)) ∧
  (∀ (i : Inputs) (s : State) (weather : option DataFrame) (pollen entry : dict),
     in_fetch i = true →
     in_save i = true →
     get_weather w (VDate (in_dt i)) (in_lat i) (in_lon i) = Ok weather →
     (if decide (in_source i = "Pollenstiftung.de")
      then get_pollenstiftung w (in_lat i) (in_lon i)
      else get_dwd_pollen w (in_lat i) (in_lon i) (VDate (in_dt i)))
       = Ok pollen →
     make_entry i weather pollen = Ok entry →
     ∃ s', script w i s = (Raise e, s') ∧ files s' = files s).
Proof.
  intros He. split.
  - intros entry s. by apply save_entry_error.
  - intros i s weather pollen entry Hfetch Hsave Hweather Hpollen Hentry.
    destruct (script_reaches_save w i s weather pollen entry)
      as (s1 & Hfiles & ->); [done..|].
    exists s1. split; [by apply save_entry_error | done].
Qed.

Lemma save_entry_error_propagates_witness :
  save_entry (online_world (Some (OSError 13))) (sample_entry "Heuschnupfen")
    empty_state = (Raise (OSError 13), empty_state) ∧
  (script (online_world (Some (OSError 13))) (sample_inputs "Heuschnupfen")
     empty_state).1 = Raise (OSError 13).
Proof.
  destruct (save_entry_error_propagates (online_world (Some (OSError 13)))
              (OSError 13) eq_refl) as [Hblock Hrun].
  split; [apply Hblock|].
  destruct (Hrun (sample_inputs "Heuschnupfen") empty_state (Some sample_daily)
              [("birke", VInt 3); ("gräser", VInt 1); ("ambrosia", VInt 0)]
              (sample_entry "Heuschnupfen"))
    as (s' & -> & _); reflexivity.
Defined.


(** C7: a save into a diary that exists adds the row of the entry and no
    header; a save without a diary creates it with the header and the row.
    So the saves of N entries (at least one) that start without a diary
    leave a file of one header row followed by the N rows of the entries,
    all of them with the thirteen columns in the same order. *)
Theorem save_entry_store_schema (w : World) :
  write_error w store_file = None →
  (∀ (entry : dict) (s : State) (old : list (list pyval)),
     files s !! store_file = Some old →
     ∃ s', save_entry w entry s = (Ok tt, s') ∧
           files s' = <[store_file := (old ++ [entry.*2])%list]> (files s)) ∧
  (∀ (entry : dict) (s : State),
     files s !! store_file = None →
     ∃ s', save_entry w entry s = (Ok tt, s') ∧
           files s' = <[store_file := [VStr <$> entry.*1; entry.*2]]> (files s)) ∧
  (∀ (entry : dict) (entries : list dict) (s : State),
     files s !! store_file = None →
     Forall made_entry (entry :: entries) →
     ∃ s' data,
       save_all w (entry :: entries) s = (Ok tt, s') ∧
       files s' !! store_file = Some ((VStr <$> entry_columns) :: data) ∧
       data = ((λ e : dict, e.*2) <$> (entry :: entries)) ∧
       length data = S (length entries) ∧
       Forall (λ r, r ≠ VStr <$> entry_columns) data ∧
       Forall (λ r, length r = 13%nat) ((VStr <$> entry_columns) :: data) ∧
       Forall (λ e : dict, e.*1 = entry_columns) (entry :: entries)).
Proof.
  intros Hw. split_and!.
  - intros entry s old Hold. by apply save_entry_append.
  - intros entry s Hnone. by apply save_entry_create.
  - intros entry entries s Hnone Hmade.
    assert (Hcols : Forall (λ e : dict, e.*1 = entry_columns) (entry :: entries)).
    { eapply Forall_impl; [exact Hmade|]. apply made_entry_columns. }
    destruct (save_entry_create w Hw entry s Hnone) as (s1 & Hsave & Hfiles).
    destruct (save_all_append w Hw entries s1 [VStr <$> entry.*1; entry.*2])
      as (s' & Hall & Hs').
    { rewrite Hfiles. apply lookup_insert_eq. }
    exists s', ((λ e : dict, e.*2) <$> (entry :: entries)).
    split_and!.
    + by rewrite (save_all_cons _ _ _ _ _ Hsave).
    + rewrite Hs'. by rewrite (Forall_inv Hcols).
    + done.
    + by rewrite length_fmap.
    + apply Forall_fmap. eapply Forall_impl; [exact Hmade|].
      intros e He. unfold compose.
      destruct (made_entry_first_cell e He) as (d & rest & ->). discriminate.
    + constructor; [done|]. apply Forall_fmap.
      eapply Forall_impl; [exact Hcols|]. intros e He. unfold compose.
      by rewrite length_fmap, <- (length_fmap fst), He.
    + done.
Qed.

Lemma sample_entry_made (notes : string) : made_entry (sample_entry notes).
Proof.
  exists (sample_inputs notes), (Some sample_daily),
    [("birke", VInt 3); ("gräser", VInt 1); ("ambrosia", VInt 0)].
  reflexivity.
Qed.

Lemma save_entry_store_schema_witness :
  ∃ s', save_all (online_world None)
          [sample_entry "Heuschnupfen"; sample_entry "besser"] empty_state
        = (Ok tt, s') ∧
        files s' !! store_file =
          Some [VStr <$> entry_columns;
                (sample_entry "Heuschnupfen").*2;
                (sample_entry "besser").*2].
Proof.
  destruct (save_entry_store_schema (online_world None) eq_refl) as (_ & _ & H).
  destruct (H (sample_entry "Heuschnupfen") [sample_entry "besser"] empty_state)
    as (s' & data & Hall & Hfile & -> & _).
  - reflexivity.
  - repeat constructor; apply sample_entry_made.
  - exists s'. split; [exact Hall | exact Hfile].
Defined.

(** C8: every row that a save writes has the thirteen fields in the order
    Datum, lat, lon, tavg, rhum, prcp, birke, gräser, ambrosia, muedigkeit,
    nase_laufen, halsweh, anmerkungen: the header row (written when the
    diary is created) names them in this order, and the data row holds the
    values of the assembled entry in the same order. *)
Theorem saved_rows_column_order (w : World) (i : Inputs)
    (weather : option DataFrame) (pollen entry : dict) (s s' : State) :
  make_entry i weather pollen = Ok entry →
  save_entry w entry s = (Ok tt, s') →
  ∃ tavg rhum prcp birke graeser ambrosia header data,
    (weather_getitem weather "tavg" = Ok tavg ∧
     weather_getitem weather "rhum" = Ok rhum ∧
     weather_getitem weather "prcp" = Ok prcp) ∧
    (dict_getitem pollen "birke" = Ok birke ∧
     dict_getitem pollen "gräser" = Ok graeser ∧
     dict_getitem pollen "ambrosia" = Ok ambrosia) ∧
    entry.*1 = ["Datum"; "lat"; "lon"; "tavg"; "rhum"; "prcp"; "birke";
                "gräser"; "ambrosia"; "muedigkeit"; "nase_laufen"; "halsweh";
                "anmerkungen"] ∧
    header = VStr <$> entry.*1 ∧
    data = [VDate (in_dt i); VFloat (in_lat i); VFloat (in_lon i);
            tavg; rhum; prcp; birke; graeser; ambrosia;
            VInt (in_fatigue i); VInt (in_runnynose i);
            VInt (in_sorethroat i); VStr (in_notes i)] ∧
    files s' !! store_file =
      Some (match files s !! store_file with
            | Some old => old ++ [data]
            | None => [header; data]
            end)%list ∧
    length header = 13%nat ∧ length data = 13%nat.
Proof.
  intros Hentry Hsave.
  pose proof (save_entry_Ok_inv _ _ _ _ Hsave) as Hw.
  assert (files s' !! store_file =
            Some (match files s !! store_file with
                  | Some old => old ++ [entry.*2]
                  | None => [VStr <$> entry.*1; entry.*2]
                  end)%list) as Hfile.
  { destruct (files s !! store_file) as [old|] eqn:Hold.
    - destruct (save_entry_append w Hw entry s old Hold) as (s1 & Hs1 & Hfiles).
      rewrite Hsave in Hs1. injection Hs1 as <-.
      rewrite Hfiles. apply lookup_insert_eq.
    - destruct (save_entry_create w Hw entry s Hold) as (s1 & Hs1 & Hfiles).
      rewrite Hsave in Hs1. injection Hs1 as <-.
      rewrite Hfiles. apply lookup_insert_eq. }
  apply make_entry_inv in Hentry
    as (tavg & rhum & prcp & birke & graeser & ambrosia & Hwe & Hpo & ->).
  eexists tavg, rhum, prcp, birke, graeser, ambrosia, _, _.
  destruct Hwe as (? & ? & ?), Hpo as (? & ? & ?).
  split_and!; done.
Qed.

Lemma saved_rows_column_order_witness :
  ∃ s', save_entry (online_world None) (sample_entry "Heuschnupfen") empty_state
        = (Ok tt, s') ∧
        files s' !! store_file =
          Some [[VStr "Datum"; VStr "lat"; VStr "lon"; VStr "tavg";
                 VStr "rhum"; VStr "prcp"; VStr "birke"; VStr "gräser";
                 VStr "ambrosia"; VStr "muedigkeit"; VStr "nase_laufen";
                 VStr "halsweh"; VStr "anmerkungen"];
                [VDate may_1; VFloat default_lat; VFloat default_lon;
                 VSeries [VFloat 12.5]; VSeries [VFloat 60];
                 VSeries [VFloat 0]; VInt 3; VInt 1; VInt 0;
                 VInt 5; VInt 0; VInt 0; VStr "Heuschnupfen"]].
Proof.
  destruct (save_entry_create (online_world None) eq_refl
              (sample_entry "Heuschnupfen") empty_state eq_refl)
    as (s' & Hsave & _).
  exists s'. split; [exact Hsave|].
  destruct (saved_rows_column_order (online_world None)
              (sample_inputs "Heuschnupfen") (Some sample_daily)
              [("birke", VInt 3); ("gräser", VInt 1); ("ambrosia", VInt 0)]
              (sample_entry "Heuschnupfen") empty_state s' eq_refl Hsave)
    as (tavg & rhum & prcp & birke & graeser & ambrosia & header & data
        & (Ht & Hr & Hp) & (Hb & Hg & Ha) & Hcols & -> & -> & Hfile & _).
  injection Ht as <-. injection Hr as <-. injection Hp as <-.
  injection Hb as <-. injection Hg as <-. injection Ha as <-.
  exact Hfile.
Defined.

(** ** The weather lookup and the run of the script *)

(** The scenario of the specification: with the DWD file as provider the
    entry that a run saves carries the pollen values 3, 1 and 0 of the row
    of the day. *)
Example script_end_to_end :
  (script (online_world None) (sample_inputs "Heuschnupfen") empty_state).1
    = Ok tt ∧
  files (script (online_world None) (sample_inputs "Heuschnupfen") empty_state).2
    !! store_file =
    Some [VStr <$> entry_columns; (sample_entry "Heuschnupfen").*2].
Proof. split; reflexivity. Qed.

(** Without a station the lookup returns [None], not a frame. *)
Lemma get_weather_no_station (w : World) (d : date) (lat lon : float) :
  stations_nearby w lat lon = Ok [] →
  get_weather w (VDate d) lat lon = Ok None.
Proof.
  intros H. unfold get_weather. by rewrite result_bind_Ok, H.
Qed.

(** An error of the station directory leaves [get_weather]. *)
Lemma get_weather_lookup_error (w : World) (d : date) (lat lon : float)
    (e : Exception) :
  stations_nearby w lat lon = Raise e →
  get_weather w (VDate d) lat lon = Raise e.
Proof.
  intros H. unfold get_weather. by rewrite result_bind_Ok, H.
Qed.

(** An error of the Meteostat download leaves [get_weather]. *)
Lemma get_weather_download_error (w : World) (d : date) (lat lon : float)
    (station : string) (others : list string) (e : Exception) :
  stations_nearby w lat lon = Ok (station :: others) →
  daily_fetch w station (VDate d) (VDate d) = Raise e →
  get_weather w (VDate d) lat lon = Raise e.
Proof.
  intros H He. unfold get_weather.
  by rewrite result_bind_Ok, H, result_bind_Ok, He.
Qed.

(** [None['tavg']] raises. *)
Lemma weather_getitem_None (key : string) :
  weather_getitem None key = Raise TypeError.
Proof. reflexivity. Qed.

(** Without a station the run stops at the first display of the weather:
    nothing is saved. *)
Lemma script_no_station (w : World) (i : Inputs) (s : State) :
  in_fetch i = true →
  stations_nearby w (in_lat i) (in_lon i) = Ok [] →
  ∃ s', script w i s = (Raise TypeError, s') ∧ files s' = files s.
Proof.
  intros Hfetch Hst. unfold script. rewrite Hfetch.
  unfold mbind, M_bind, emit, lift. cbn beta iota zeta.
  rewrite (get_weather_no_station _ _ _ _ Hst). cbn beta iota.
  eexists. split; reflexivity.
Qed.

(** When the station directory raises, so does the run: nothing is saved. *)
Lemma script_lookup_error (w : World) (i : Inputs) (s : State) (e : Exception) :
  in_fetch i = true →
  stations_nearby w (in_lat i) (in_lon i) = Raise e →
  ∃ s', script w i s = (Raise e, s') ∧ files s' = files s.
Proof.
  intros Hfetch Hst. unfold script. rewrite Hfetch.
  unfold mbind, M_bind, emit, lift. cbn beta iota zeta.
  rewrite (get_weather_lookup_error _ _ _ _ _ Hst).
  eexists. split; reflexivity.
Qed.

(** C1: the claim does not hold of the code.  Where no station is near,
    [get_weather] returns [None] and the run of the script stops with a
    [TypeError] at [weather['tavg']]; where the station directory cannot be
    reached, [get_weather] itself raises.  In both runs the entry is not
    saved, although both buttons were pressed. *)
Theorem get_weather_failure_aborts_entry :
  get_weather no_station_world (VDate may_1) default_lat default_lon = Ok None ∧
  (script no_station_world (sample_inputs "Heuschnupfen") empty_state).1
    = Raise TypeError ∧
  files (script no_station_world (sample_inputs "Heuschnupfen") empty_state).2
    !! store_file = None ∧
  get_weather no_network_world (VDate may_1) default_lat default_lon
    = Raise ConnectionError ∧
  (script no_network_world (sample_inputs "Heuschnupfen") empty_state).1
    = Raise ConnectionError ∧
  files (script no_network_world (sample_inputs "Heuschnupfen") empty_state).2
    !! store_file = None.
Proof. split_and!; reflexivity. Qed.

(** * Further properties *)

(** ** Pollenstiftung.de: the answers that are read *)

Lemma raise_for_status_ok (resp : Response) :
  ¬ (400 ≤ status_code resp < 600) → raise_for_status resp = Ok tt.
Proof.
  intros H. unfold raise_for_status.
  destruct (400 <=? status_code resp)%Z eqn:H1; [|done].
  destruct (status_code resp <? 600)%Z eqn:H2; [|done].
  apply Z.leb_le in H1. apply Z.ltb_lt in H2. lia.
Qed.

Lemma raise_for_status_inv (resp : Response) :
  raise_for_status resp = Ok tt → ¬ (400 ≤ status_code resp < 600).
Proof.
  intros H Hst. by rewrite (raise_for_status_error _ Hst) in H.
Qed.

Lemma forecast_index_dict (d : dict) (name : string) :
  is_dict (dict_get d name (VDict [])) = true →
  forecast_index (VDict d) name = Ok (index_of d name).
Proof.
  intros H. unfold forecast_index, index_of. simpl.
  by destruct (dict_get d name (VDict [])).
Qed.

Lemma forecast_index_inv (data v : pyval) (name : string) :
  forecast_index data name = Ok v →
  ∃ d, data = VDict d ∧ is_dict (dict_get d name (VDict [])) = true ∧
       v = index_of d name.
Proof.
  intros H. destruct data; try discriminate H.
  exists d. split; [done|]. unfold forecast_index, index_of in *. simpl in H.
  destruct (dict_get d name (VDict [])); try discriminate H.
  by injection H as <-.
Qed.

(** X1: when the request succeeds with a status that is no error status and
    the body is an object in which every allergen that is present is an
    object, [get_pollenstiftung] returns for each allergen the [index] of
    its entry, and [None] for an allergen that is missing or has no
    [index]; the other allergens keep their values. *)
Theorem get_pollenstiftung_success (w : World) (lat lon : float)
    (resp : Response) (d : dict) :
  requests_get w POLLENSTIFTUNG_API_URL
    [("lat", VFloat lat); ("lng", VFloat lon)] = Ok resp →
  ¬ (400 ≤ status_code resp < 600) →
  json resp = Ok (VDict d) →
  (∀ name, name ∈ pollen_keys → is_dict (dict_get d name (VDict [])) = true) →
  get_pollenstiftung w lat lon =
    Ok [("birke", index_of d "birke");
        ("gräser", index_of d "gräser");
        ("ambrosia", index_of d "ambrosia")] ∧
  (∀ name, name ∈ pollen_keys → name ∉ d.*1 → index_of d name = VNone).
Proof.
  intros Hget Hst Hjson Hshape. split.
  - unfold get_pollenstiftung. cbv zeta.
    rewrite Hget, result_bind_Ok, (raise_for_status_ok _ Hst), result_bind_Ok.
    rewrite Hjson, result_bind_Ok.
    rewrite !forecast_index_dict by (apply Hshape; unfold pollen_keys; set_solver).
    reflexivity.
  - intros name _ Hname. unfold index_of.
    assert (Hdflt : ∀ dflt, dict_get d name dflt = dflt).
    { intros dflt. clear -Hname. induction d as [|[k v] d IH]; [done|].
      simpl in *. apply not_elem_of_cons in Hname as [Hk Hd].
      rewrite decide_False by done. by apply IH. }
    by rewrite Hdflt.
Qed.

Lemma get_pollenstiftung_success_witness :
  get_pollenstiftung (forecast_world 200 (Ok partial_forecast))
    default_lat default_lon =
    Ok [("birke", VInt 2); ("gräser", VNone); ("ambrosia", VNone)].
Proof.
  destruct (get_pollenstiftung_success (forecast_world 200 (Ok partial_forecast))
              default_lat default_lon
              {| status_code := 200; json := Ok partial_forecast |}
              [("birke", VDict [("index", VInt 2)]);
               ("ambrosia", VDict [("level", VStr "low")])])
    as [H _].
  - reflexivity.
  - simpl. lia.
  - reflexivity.
  - intros name Hname. unfold pollen_keys in Hname.
    rewrite !elem_of_cons, elem_of_nil in Hname.
    destruct Hname as [->|[->|[->|[]]]]; reflexivity.
  - exact H.
Defined.

(** X2: [get_pollenstiftung] returns a reading other than the all-absent
    one only if the request succeeded, the status was outside 400..599, the
    body was an object and every allergen present in it was an object; the
    reading then holds the indices of that body. *)
Theorem get_pollenstiftung_values_inv (w : World) (lat lon : float)
    (reading : dict) :
  get_pollenstiftung w lat lon = Ok reading →
  reading ≠ all_None →
  ∃ resp d,
    requests_get w POLLENSTIFTUNG_API_URL
      [("lat", VFloat lat); ("lng", VFloat lon)] = Ok resp ∧
    ¬ (400 ≤ status_code resp < 600) ∧
    json resp = Ok (VDict d) ∧
    (∀ name, name ∈ pollen_keys → is_dict (dict_get d name (VDict [])) = true) ∧
    reading = [("birke", index_of d "birke");
               ("gräser", index_of d "gräser");
               ("ambrosia", index_of d "ambrosia")].
Proof.
  unfold get_pollenstiftung. cbv zeta. intros H Hne.
  destruct (requests_get w _ _) as [resp|e] eqn:Hget;
    [rewrite result_bind_Ok in H | by injection H as <-].
  destruct (raise_for_status resp) as [[]|e] eqn:Hst;
    [rewrite result_bind_Ok in H | by injection H as <-].
  destruct (json resp) as [data|e] eqn:Hjson;
    [rewrite result_bind_Ok in H | by injection H as <-].
  destruct (forecast_index data "birke") as [b|e] eqn:Hb;
    [rewrite result_bind_Ok in H | by injection H as <-].
  destruct (forecast_index data "gräser") as [g|e] eqn:Hg;
    [rewrite result_bind_Ok in H | by injection H as <-].
  destruct (forecast_index data "ambrosia") as [a|e] eqn:Ha;
    [rewrite result_bind_Ok in H | by injection H as <-].
  injection H as <-.
  apply forecast_index_inv in Hb as (d & -> & Hdb & ->).
  apply forecast_index_inv in Hg as (d' & [= <-] & Hdg & ->).
  apply forecast_index_inv in Ha as (d' & [= <-] & Hda & ->).
  exists resp, d. split_and!; try done.
  - by apply raise_for_status_inv.
  - intros name Hname. unfold pollen_keys in Hname.
    rewrite !elem_of_cons, elem_of_nil in Hname.
    by destruct Hname as [->|[->|[->|[]]]].
Qed.

Lemma get_pollenstiftung_values_inv_witness :
  ∃ resp d,
    requests_get (forecast_world 200 (Ok sample_forecast)) POLLENSTIFTUNG_API_URL
      [("lat", VFloat default_lat); ("lng", VFloat default_lon)] = Ok resp ∧
    ¬ (400 ≤ status_code resp < 600) ∧
    json resp = Ok (VDict d).
Proof.
  destruct (get_pollenstiftung_values_inv (forecast_world 200 (Ok sample_forecast))
              default_lat default_lon
              [("birke", VInt 3); ("gräser", VInt 1); ("ambrosia", VInt 0)])
    as (resp & d & H1 & H2 & H3 & _).
  - reflexivity.
  - discriminate.
  - by exists resp, d.
Defined.

(** ** The DWD file: missing columns, failures, and where values come from *)

Lemma dict_get_missing (d : dict) (key : string) (dflt : pyval) :
  key ∉ d.*1 → dict_get d key dflt = dflt.
Proof.
  induction d as [|[k v] d IH]; [done|]. simpl.
  intros [Hk Hd]%not_elem_of_cons. rewrite decide_False by done. by apply IH.
Qed.

Lemma series_get_missing (cols : list string) (r : list pyval) (label : string) :
  label ∉ cols → series_get (zip cols r) label = VNone.
Proof.
  intros H. unfold series_get. rewrite dict_get_zip.
  destruct (list_find _ cols) as [[i y]|] eqn:Hfind; [|done].
  apply list_find_Some in Hfind as (Hy & -> & _).
  exfalso. apply H. by eapply list_elem_of_lookup_2.
Qed.

Lemma df_getitem_missing (df : DataFrame) (label : string) :
  label ∉ columns df → df_getitem df label = Raise KeyError.
Proof.
  intros H. unfold df_getitem.
  destruct (list_find _ (columns df)) as [[i y]|] eqn:Hfind; [|done].
  apply list_find_Some in Hfind as (Hy & -> & _).
  exfalso. apply H. by eapply list_elem_of_lookup_2.
Qed.

Lemma df_getitem_present (df : DataFrame) (label : string) :
  label ∈ columns df → ∃ col, df_getitem df label = Ok col.
Proof.
  intros H. unfold df_getitem.
  destruct (list_find (λ x, x = label) (columns df)) as [[i y]|] eqn:Hfind;
    [eauto|].
  eapply list_find_None, Forall_forall in Hfind; [|exact H]. done.
Qed.

Lemma filter_cons_inv {A} (f : A → bool) (l rest : list A) (r : A) :
  List.filter f l = r :: rest →
  ∃ pre post, l = (pre ++ r :: post)%list ∧
              Forall (λ a, f a = false) pre ∧ f r = true.
Proof.
  induction l as [|a l IH]; [done|]. simpl.
  destruct (f a) eqn:Ha.
  - intros [= -> _]. by exists [], l.
  - intros (pre & post & -> & Hpre & Hr)%IH.
    exists (a :: pre), post. split_and!; [done| |done]. by constructor.
Qed.

(** X3: a column that the file lacks gives [None] for its allergen and
    leaves the two others as they are: with a row on the requested day,
    [get_dwd_pollen] returns the reading of the first such row, in which
    every allergen without a column is [None]. *)
Theorem get_dwd_pollen_missing_column (w : World) (lat lon : float) (dt : pyval)
    (ts : Timestamp) (df : DataFrame) (pre post : list (list pyval))
    (r : list pyval) :
  read_csv w (dwd_url "001") ["date"] true = Ok df →
  pd_to_datetime w dt = Ok (Some ts) →
  rows df = (pre ++ r :: post)%list →
  Forall (λ r', ¬ row_on df ts r') pre →
  row_on df ts r →
  get_dwd_pollen w lat lon dt = Ok (reading_of_row df r) ∧
  ("Birke" ∉ columns df → dict_getitem (reading_of_row df r) "birke" = Ok VNone) ∧
  ("Gräser" ∉ columns df → dict_getitem (reading_of_row df r) "gräser" = Ok VNone) ∧
  ("Ambrosia" ∉ columns df →
     dict_getitem (reading_of_row df r) "ambrosia" = Ok VNone).
Proof.
  intros Hread Hts Hrows Hpre Hr. split_and!.
  - by eapply get_dwd_pollen_first_match.
  - intros H. simpl. by rewrite series_get_missing.
  - intros H. simpl. by rewrite series_get_missing.
  - intros H. simpl. by rewrite series_get_missing.
Qed.

Lemma get_dwd_pollen_missing_column_witness :
  get_dwd_pollen (dwd_world narrow_dataset) default_lat default_lon (VDate may_1)
    = Ok [("birke", VInt 3); ("gräser", VInt 1); ("ambrosia", VNone)].
Proof.
  destruct (get_dwd_pollen_missing_column (dwd_world narrow_dataset)
              default_lat default_lon (VDate may_1) (Ts may_1 0) narrow_dataset
              [] [] [VTimestamp (Ts may_1 0); VInt 3; VInt 1])
    as [H _].
  - reflexivity.
  - reflexivity.
  - reflexivity.
  - constructor.
  - reflexivity.
  - exact H.
Defined.

(** X4: [get_dwd_pollen] returns the all-absent reading, and raises
    nothing, when the download or the parsing of the file raises, when the
    file has no column [date], when the requested date cannot be converted,
    or when it converts to [NaT]. *)
Theorem get_dwd_pollen_failure (w : World) (lat lon : float) (dt : pyval) :
  (∃ e, read_csv w (dwd_url "001") ["date"] true = Raise e) ∨
  (∃ df, read_csv w (dwd_url "001") ["date"] true = Ok df ∧
         "date" ∉ columns df) ∨
  (∃ e, pd_to_datetime w dt = Raise e) ∨
  pd_to_datetime w dt = Ok None →
  get_dwd_pollen w lat lon dt = Ok all_None.
Proof.
  unfold get_dwd_pollen. cbv zeta.
  intros [[e He] | [(df & Hdf & Hcol) | H]].
  - by rewrite He.
  - by rewrite Hdf, result_bind_Ok, df_getitem_missing.
  - destruct (read_csv w _ _ _) as [df|e]; [rewrite result_bind_Ok|done].
    destruct (df_getitem df "date") as [col|e] eqn:Hcol;
      [rewrite result_bind_Ok|done].
    destruct H as [[e He] | Hnat].
    + by rewrite He.
    + rewrite Hnat, result_bind_Ok. unfold iloc0.
      rewrite (df_mask_rows _ _ _ Hcol), filter_no_match; [done|].
      apply Forall_forall. intros r _. unfold row_matches.
      by destruct (series_get _ _).
Qed.

Lemma get_dwd_pollen_failure_witness :
  get_dwd_pollen (dwd_world undated_dataset) default_lat default_lon
    (VDate may_1) = Ok all_None.
Proof.
  apply get_dwd_pollen_failure. right. left.
  exists undated_dataset. split; [reflexivity|].
  simpl. rewrite !not_elem_of_cons. split_and!; try discriminate.
  apply not_elem_of_nil.
Defined.

(** X5: [get_dwd_pollen] never returns values of a row of another day: a
    reading other than the all-absent one is the reading of a row of the
    parsed file that is on the requested day, and of the first such row. *)
Theorem get_dwd_pollen_values_inv (w : World) (lat lon : float) (dt : pyval)
    (reading : dict) :
  get_dwd_pollen w lat lon dt = Ok reading →
  reading ≠ all_None →
  ∃ df ts pre r post,
    read_csv w (dwd_url "001") ["date"] true = Ok df ∧
    pd_to_datetime w dt = Ok (Some ts) ∧
    rows df = (pre ++ r :: post)%list ∧
    Forall (λ r', ¬ row_on df ts r') pre ∧
    row_on df ts r ∧
    reading = reading_of_row df r.
Proof.
  unfold get_dwd_pollen. cbv zeta. intros H Hne.
  destruct (read_csv w _ _ _) as [df|e] eqn:Hread;
    [rewrite result_bind_Ok in H | by injection H as <-].
  destruct (df_getitem df "date") as [col|e] eqn:Hcol;
    [rewrite result_bind_Ok in H | by injection H as <-].
  destruct (pd_to_datetime w dt) as [x|e] eqn:Hts;
    [rewrite result_bind_Ok in H | by injection H as <-].
  unfold iloc0 in H. rewrite (df_mask_rows _ _ _ Hcol) in H.
  destruct (List.filter _ (rows df)) as [|r rest] eqn:Hfilter;
    [by injection H as <-|].
  rewrite result_bind_Ok in H. injection H as <-.
  apply filter_cons_inv in Hfilter as (pre & post & Hrows & Hpre & Hr).
  assert (∃ ts, x = Some ts) as [ts ->].
  { unfold row_matches in Hr. apply cell_eq_true in Hr as (ts & -> & _). eauto. }
  exists df, ts, pre, r, post. split_and!; try done.
  - eapply Forall_impl; [exact Hpre|]. intros r' Hr' Hon. simpl in Hr'.
    apply row_matches_on in Hon. congruence.
  - by apply row_matches_on.
Qed.

Lemma get_dwd_pollen_values_inv_witness :
  ∃ df ts pre r post,
    read_csv (dwd_world sample_dataset) (dwd_url "001") ["date"] true = Ok df ∧
    rows df = (pre ++ r :: post)%list ∧
    row_on df ts r ∧
    [("birke", VInt 3); ("gräser", VInt 1); ("ambrosia", VInt 0)]
      = reading_of_row df r.
Proof.
  destruct (get_dwd_pollen_values_inv (dwd_world sample_dataset)
              default_lat default_lon (VDate may_1)
              [("birke", VInt 3); ("gräser", VInt 1); ("ambrosia", VInt 0)])
    as (df & ts & pre & r & post & H1 & _ & H3 & _ & H5 & H6).
  - reflexivity.
  - discriminate.
  - by exists df, ts, pre, r, post.
Defined.

(** ** The weather lookup *)

(** X6: [get_weather] treats the three forms of a day alike: a [Timestamp]
    and a string that [strptime] parses give the result of their calendar
    date, and a string that [strptime] rejects makes [get_weather] raise
    that error, whatever the station directory would answer. *)
Theorem get_weather_date_forms (w : World) (lat lon : float) (t : Timestamp) :
  get_weather w (VTimestamp t) lat lon = get_weather w (VDate (ts_date t)) lat lon ∧
  (∀ s, strptime w s "%Y-%m-%d" = Ok t →
        get_weather w (VStr s) lat lon = get_weather w (VDate (ts_date t)) lat lon) ∧
  (∀ s e, strptime w s "%Y-%m-%d" = Raise e →
          get_weather w (VStr s) lat lon = Raise e).
Proof.
  split_and!.
  - reflexivity.
  - intros s Hs. unfold get_weather. by rewrite Hs.
  - intros s e Hs. unfold get_weather. by rewrite Hs.
Qed.

(** X7: for a date, [get_weather] returns [None] exactly when the station
    directory answers with no station, and a frame exactly when it answers
    with a station and the download of the daily data of the first station,
    from the day to the same day, returns that frame. *)
Theorem get_weather_returns (w : World) (d : date) (lat lon : float) :
  (get_weather w (VDate d) lat lon = Ok None ↔
     stations_nearby w lat lon = Ok []) ∧
  (∀ data,
     get_weather w (VDate d) lat lon = Ok (Some data) ↔
     ∃ station others,
       stations_nearby w lat lon = Ok (station :: others) ∧
       daily_fetch w station (VDate d) (VDate d) = Ok data).
Proof.
  unfold get_weather. rewrite result_bind_Ok.
  destruct (stations_nearby w lat lon) as [[|station others]|e];
    try rewrite result_bind_Ok.
  - split; [done|]. intros data. split; [done|].
    by intros (? & ? & ? & _).
  - destruct (daily_fetch w station (VDate d) (VDate d)) as [data|e] eqn:Hd.
    + rewrite result_bind_Ok. split; [done|]. intros data'. split.
      * intros [= <-]. eauto.
      * intros (? & ? & [= <- _] & H). rewrite Hd in H. by injection H as <-.
    + split; [done|]. intros data'. split; [done|].
      intros (? & ? & [= <- _] & H). by rewrite Hd in H.
  - split; [done|]. intros data. split; [done|]. by intros (? & ? & ? & _).
Qed.

Lemma get_weather_date_forms_witness :
  get_weather parsing_world (VStr "2024-05-01") default_lat default_lon =
  get_weather parsing_world (VDate may_1) default_lat default_lon.
Proof.
  destruct (get_weather_date_forms parsing_world default_lat default_lon
              (Ts may_1 0)) as (_ & H & _).
  apply H. reflexivity.
Defined.

(** ** The runs of the script *)

Ltac solve_displays :=
  split; [reflexivity|];
  eexists; split;
  [cbn [ui]; rewrite <- ?app_assoc; try reflexivity; symmetry; apply app_nil_r
  |cbn [app]; repeat constructor].

Lemma chosen_pollen_keys (w : World) (i : Inputs) :
  ∃ pollen, chosen_pollen w i = Ok pollen ∧ pollen.*1 = pollen_keys.
Proof.
  unfold chosen_pollen. destruct (decide _).
  - apply get_pollenstiftung_keys.
  - apply get_dwd_pollen_keys.
Qed.


Lemma conj_later (A B : Prop) : B → A → A ∧ B.
Proof. tauto. Qed.

(** Every run ends in one of four ways: without the first button it only
    shows the title; it stops at the weather; it shows the data and ends; or
    it enters the save block with the entry of the data. *)
Lemma script_outcome (w : World) (i : Inputs) (s : State) :
  ∃ s1, displays s s1 ∧
    ((in_fetch i = false ∧ script w i s = (Ok tt, s1)) ∨
     (in_fetch i = true ∧
      ∃ e, weather_error w i e ∧ script w i s = (Raise e, s1)) ∨
     (in_fetch i = true ∧
      ∃ weather pollen entry,
        get_weather w (VDate (in_dt i)) (in_lat i) (in_lon i) = Ok weather ∧
        chosen_pollen w i = Ok pollen ∧
        make_entry i weather pollen = Ok entry ∧
        ((in_save i = false ∧ script w i s = (Ok tt, s1)) ∨
         (in_save i = true ∧ script w i s = save_entry w entry s1)))).
Proof.
  unfold script. destruct (in_fetch i) eqn:Hfetch.
  2: { eexists. split; [|left; split; [done|reflexivity]]. solve_displays. }
  unfold mbind, M_bind, mret, M_ret, emit, lift. cbn beta iota zeta.
  cbn [files ui].
  destruct (get_weather w _ _ _) as [weather|e] eqn:Hweather.
  2: { eexists. split; [|right; left; split; [done|]; exists e;
                         split; [by left|reflexivity]].
       solve_displays. }
  destruct (weather_getitem weather "tavg") as [tavg|e] eqn:Ht.
  2: { eexists. split; [|right; left; split; [done|]; exists e;
                         split; [|reflexivity]].
       - solve_displays.
       - right. exists weather, "tavg". split_and!; [done| |done].
         unfold weather_keys. set_solver. }
  destruct (weather_getitem weather "rhum") as [rhum|e] eqn:Hr.
  2: { eexists. split; [|right; left; split; [done|]; exists e;
                         split; [|reflexivity]].
       - solve_displays.
       - right. exists weather, "rhum". split_and!; [done| |done].
         unfold weather_keys. set_solver. }
  destruct (weather_getitem weather "prcp") as [prcp|e] eqn:Hp.
  2: { eexists. split; [|right; left; split; [done|]; exists e;
                         split; [|reflexivity]].
       - solve_displays.
       - right. exists weather, "prcp". split_and!; [done| |done].
         unfold weather_keys. set_solver. }
  destruct (chosen_pollen_keys w i) as (pollen & Hpollen & Hkeys).
  destruct (pollen_keys_getitem pollen "birke" Hkeys) as [b Hb];
    [unfold pollen_keys; set_solver|].
  destruct (pollen_keys_getitem pollen "gräser" Hkeys) as [g Hg];
    [unfold pollen_keys; set_solver|].
  destruct (pollen_keys_getitem pollen "ambrosia" Hkeys) as [a Ha];
    [unfold pollen_keys; set_solver|].
  assert (Hentry : ∃ entry, make_entry i weather pollen = Ok entry).
  { unfold make_entry. rewrite Ht, Hr, Hp, Hb, Hg, Ha. eauto. }
  destruct Hentry as [entry Hentry].
  pose proof Hpollen as Hchosen. unfold chosen_pollen in Hpollen.
  destruct (decide (in_source i = "Pollenstiftung.de"));
    rewrite Hpollen; cbn [files ui]; rewrite Hb, Hg, Ha; cbn [files ui];
    rewrite Hentry;
    (destruct (in_save i);
     (eexists; apply conj_later;
      [right; right; split; [done|]; exists weather, pollen, entry;
       split_and!; [done..|];
       first [left; split; [done|reflexivity]
             |right; split; [done|reflexivity]]
      |solve_displays])).
Qed.

Lemma weather_getitem_error (weather : option DataFrame) (key : string)
    (e : Exception) :
  weather_getitem weather key = Raise e →
  e = match weather with None => TypeError | Some _ => KeyError end.
Proof.
  destruct weather as [df|]; simpl; [|by intros [= <-]].
  unfold df_getitem. destruct (list_find _ _) as [[? ?]|]; [done|].
  by intros [= <-].
Qed.

Lemma weather_error_unique (w : World) (i : Inputs) (e e' : Exception) :
  weather_error w i e → weather_error w i e' → e = e'.
Proof.
  intros [H | (weather & key & H & _ & Hk)] [H' | (weather' & key' & H' & _ & Hk')];
    rewrite H in H'; try discriminate H'.
  - by injection H' as <-.
  - injection H' as <-.
    apply weather_getitem_error in Hk, Hk'. by subst.
Qed.

Lemma make_entry_no_weather_error (w : World) (i : Inputs)
    (weather : option DataFrame) (pollen entry : dict) (e : Exception) :
  get_weather w (VDate (in_dt i)) (in_lat i) (in_lon i) = Ok weather →
  make_entry i weather pollen = Ok entry →
  ¬ weather_error w i e.
Proof.
  intros Hw Hentry [H | (weather' & key & H & Hkey & Hk)];
    rewrite Hw in H; [done|]. injection H as <-.
  apply make_entry_inv in Hentry
    as (? & ? & ? & ? & ? & ? & (Ht & Hr & Hp) & _).
  unfold weather_keys in Hkey. rewrite !elem_of_cons, elem_of_nil in Hkey.
  destruct Hkey as [->|[->|[->|[]]]]; congruence.
Qed.

(** A run with the first button pressed in which the weather fails stops
    with that error. *)
Lemma script_weather_error (w : World) (i : Inputs) (s : State) (e : Exception) :
  in_fetch i = true →
  weather_error w i e →
  ∃ s1, displays s s1 ∧ script w i s = (Raise e, s1).
Proof.
  intros Hfetch He.
  destruct (script_outcome w i s)
    as (s1 & Hs1 & [[Hf _] | [(_ & e' & He' & Hrun)
                             | (_ & weather & pollen & entry & Hw & _ & Hentry & _)]]).
  - congruence.
  - exists s1. by rewrite (weather_error_unique _ _ _ _ He He').
  - by destruct (make_entry_no_weather_error _ _ _ _ _ e Hw Hentry).
Qed.

Lemma save_entry_ui (w : World) (entry : dict) (s s' : State) :
  save_entry w entry s = (Ok tt, s') →
  ui s' =
    (ui s ++ [UiSuccess "✅ Eintrag gespeichert in `allergie_tagebuch.csv`";
              UiFrame (frame_of_record entry)])%list.
Proof.
  unfold save_entry, mbind, M_bind, path_exists, to_csv, emit.
  destruct (write_error w store_file); [by destruct (bool_decide _)|].
  destruct (bool_decide _); intros [= <-]; cbn [ui]; by rewrite <- app_assoc.
Qed.

(** What a save that succeeds leaves in the files. *)
Lemma save_entry_files (w : World) (entry : dict) (s s' : State) :
  save_entry w entry s = (Ok tt, s') →
  files s' =
    <[store_file := match files s !! store_file with
                    | Some old => (old ++ [entry.*2])%list
                    | None => [VStr <$> entry.*1; entry.*2]
                    end]> (files s).
Proof.
  intros Hsave. pose proof (save_entry_Ok_inv _ _ _ _ Hsave) as Hw.
  destruct (files s !! store_file) as [old|] eqn:Hold.
  - destruct (save_entry_append w Hw entry s old Hold) as (s1 & Hs1 & Hfiles).
    rewrite Hsave in Hs1. by injection Hs1 as <-.
  - destruct (save_entry_create w Hw entry s Hold) as (s1 & Hs1 & Hfiles).
    rewrite Hsave in Hs1. by injection Hs1 as <-.
Qed.

Lemma save_entry_result (w : World) (entry : dict) (s : State) :
  (∃ e, write_error w store_file = Some e ∧ save_entry w entry s = (Raise e, s)) ∨
  (write_error w store_file = None ∧ ∃ s', save_entry w entry s = (Ok tt, s')).
Proof.
  destruct (write_error w store_file) as [e|] eqn:Hw.
  - left. exists e. split; [done|]. by apply save_entry_error.
  - right. split; [done|].
    destruct (files s !! store_file) as [old|] eqn:Hold.
    + destruct (save_entry_append w Hw entry s old Hold) as (s' & H & _). eauto.
    + destruct (save_entry_create w Hw entry s Hold) as (s' & H & _). eauto.
Qed.

(** X8: a run changes no file other than the diary, and the diary only by
    adding rows after those it holds; it changes no file at all unless both
    buttons are pressed, and none when it ends with an error. *)
Theorem script_files (w : World) (i : Inputs) (s : State) :
  (∀ path, path ≠ store_file →
     files (script w i s).2 !! path = files s !! path) ∧
  (∀ old, files s !! store_file = Some old →
     ∃ added, files (script w i s).2 !! store_file = Some (old ++ added)%list) ∧
  (in_fetch i = false ∨ in_save i = false → files (script w i s).2 = files s) ∧
  (∀ e, (script w i s).1 = Raise e → files (script w i s).2 = files s).
Proof.
  destruct (script_outcome w i s)
    as (s1 & [Hfiles _] & [[Hf ->] | [(Hf & e' & _ & ->)
        | (Hf & weather & pollen & entry & _ & _ & _ & [[Hs ->] | [Hs ->]])]]);
    cbn [fst snd]; try rewrite Hfiles.
  1-3: split_and!; [done | intros old ->; exists []; by rewrite app_nil_r
                   | done | done].
  destruct (save_entry_result w entry s1) as [(e & _ & ->) | (_ & s' & Hsave)];
    cbn [fst snd]; try rewrite Hfiles.
  - split_and!; [done | intros old ->; exists []; by rewrite app_nil_r
                | done | done].
  - rewrite Hsave. cbn [fst snd].
    rewrite (save_entry_files _ _ _ _ Hsave), Hfiles. split_and!.
    + intros path Hpath. by rewrite lookup_insert_ne.
    + intros old ->. rewrite lookup_insert_eq. eauto.
    + intros [H|H]; congruence.
    + done.
Qed.

(** X9: a run ends with the error [e] exactly when the first button is
    pressed and either the weather fails with [e] (the lookup raises, or the
    lookup of [tavg], [rhum] or [prcp] in its result does), or the weather
    does not fail, the second button is pressed and writing the diary raises
    [e].  The pollen data never make a run fail. *)
Theorem script_raises_iff (w : World) (i : Inputs) (s : State) (e : Exception) :
  (script w i s).1 = Raise e ↔
  in_fetch i = true ∧
  (weather_error w i e ∨
   ((∀ e', ¬ weather_error w i e') ∧
    in_save i = true ∧ write_error w store_file = Some e)).
Proof.
  destruct (script_outcome w i s)
    as (s1 & _ & [[Hf Hrun] | [(Hf & e' & He' & Hrun)
        | (Hf & weather & pollen & entry & Hw & _ & Hentry & Hrun)]]).
  - rewrite Hrun. cbn [fst]. split; [done|]. intros [? _]. congruence.
  - rewrite Hrun. cbn [fst]. split.
    + intros [= <-]. auto.
    + intros [_ [He | [Hno _]]].
      * by rewrite (weather_error_unique _ _ _ _ He He').
      * by destruct (Hno e').
  - assert (Hno : ∀ e', ¬ weather_error w i e').
    { intros e'. by eapply make_entry_no_weather_error. }
    destruct Hrun as [[Hs Hrun] | [Hs Hrun]]; rewrite Hrun.
    + cbn [fst]. split; [done|]. intros [_ [He | (_ & ? & _)]].
      * by destruct (Hno e).
      * congruence.
    + destruct (save_entry_result w entry s1)
        as [(e' & Hwe & ->) | (Hwe & s' & ->)]; cbn [fst].
      * split.
        -- intros [= <-]. auto.
        -- intros [_ [He | (_ & _ & He)]]; [by destruct (Hno e)|]. congruence.
      * split; [done|]. intros [_ [He | (_ & _ & He)]];
          [by destruct (Hno e) | congruence].
Qed.

(** X10: the success message is shown in exactly the runs in which both
    buttons are pressed and no error is raised, that is, the runs that wrote
    the row. *)
Theorem script_success_message (w : World) (i : Inputs) (s : State) :
  ∃ evs,
    ui (script w i s).2 = (ui s ++ evs)%list ∧
    (Exists (λ ev, is_success ev = true) evs ↔
     (script w i s).1 = Ok tt ∧ in_fetch i = true ∧ in_save i = true).
Proof.
  assert (Hquiet : ∀ evs : list ui_event,
            Forall (λ ev, is_success ev = false) evs →
            ¬ Exists (λ ev, is_success ev = true) evs).
  { intros evs Hall Hex. apply Exists_exists in Hex as (ev & Hin & Hev).
    rewrite Forall_forall in Hall. specialize (Hall _ Hin). congruence. }
  destruct (script_outcome w i s)
    as (s1 & (_ & evs & Hui & Hevs) & [[Hf Hrun] | [(Hf & e' & He' & Hrun)
        | (Hf & weather & pollen & entry & Hw & _ & Hentry & Hrun)]]).
  - exists evs. rewrite Hrun. cbn [fst snd]. split; [done|]. split.
    + intros Hex. by destruct (Hquiet _ Hevs).
    + intros (_ & ? & _). congruence.
  - exists evs. rewrite Hrun. cbn [fst snd]. split; [done|]. split.
    + intros Hex. by destruct (Hquiet _ Hevs).
    + by intros [? _].
  - destruct Hrun as [[Hs Hrun] | [Hs Hrun]]; rewrite Hrun.
    + exists evs. cbn [fst snd]. split; [done|]. split.
      * intros Hex. by destruct (Hquiet _ Hevs).
      * intros (_ & _ & ?). congruence.
    + destruct (save_entry_result w entry s1)
        as [(e' & Hwe & ->) | (Hwe & s' & Hsave)].
      * exists evs. cbn [fst snd]. split; [done|]. split.
        -- intros Hex. by destruct (Hquiet _ Hevs).
        -- by intros [? _].
      * rewrite Hsave. cbn [fst snd].
        rewrite (save_entry_ui _ _ _ _ Hsave), Hui, <- app_assoc.
        eexists. split; [reflexivity|]. split; [done|]. intros _.
        apply Exists_app. right. by apply Exists_cons_hd.
Qed.

(** X11: when both buttons are pressed, the weather lookup returns a frame
    with the columns [tavg], [rhum] and [prcp] and the diary can be written,
    the run ends without error and the diary gains one row (after the header
    if it is new): date, position, the three weather columns, the reading of
    the chosen pollen source, the three sliders and the notes. *)
Theorem script_saves_reading (w : World) (i : Inputs) (s : State)
    (data : DataFrame) :
  in_fetch i = true →
  in_save i = true →
  get_weather w (VDate (in_dt i)) (in_lat i) (in_lon i) = Ok (Some data) →
  (∀ key, key ∈ weather_keys → key ∈ columns data) →
  write_error w store_file = None →
  ∃ tavg rhum prcp birke graeser ambrosia row,
    (df_getitem data "tavg" = Ok tavg ∧
     df_getitem data "rhum" = Ok rhum ∧
     df_getitem data "prcp" = Ok prcp) ∧
    chosen_pollen w i =
      Ok [("birke", birke); ("gräser", graeser); ("ambrosia", ambrosia)] ∧
    row = [VDate (in_dt i); VFloat (in_lat i); VFloat (in_lon i);
           VSeries tavg; VSeries rhum; VSeries prcp;
           birke; graeser; ambrosia;
           VInt (in_fatigue i); VInt (in_runnynose i);
           VInt (in_sorethroat i); VStr (in_notes i)] ∧
    (script w i s).1 = Ok tt ∧
    files (script w i s).2 !! store_file =
      Some (match files s !! store_file with
            | Some old => old ++ [row]
            | None => [VStr <$> entry_columns; row]
            end)%list.
Proof.
  intros Hfetch Hsave Hweather Hcols Hwrite.
  destruct (df_getitem_present data "tavg") as [tavg Ht];
    [apply Hcols; unfold weather_keys; set_solver|].
  destruct (df_getitem_present data "rhum") as [rhum Hr];
    [apply Hcols; unfold weather_keys; set_solver|].
  destruct (df_getitem_present data "prcp") as [prcp Hp];
    [apply Hcols; unfold weather_keys; set_solver|].
  destruct (chosen_pollen_keys w i) as (pollen & Hpollen & Hkeys).
  destruct pollen as [|[k1 b] [|[k2 g] [|[k3 a] [|? ?]]]]; try discriminate Hkeys.
  injection Hkeys as -> -> ->.
  set (entry := [("Datum", VDate (in_dt i));
                 ("lat", VFloat (in_lat i)); ("lon", VFloat (in_lon i));
                 ("tavg", VSeries tavg); ("rhum", VSeries rhum);
                 ("prcp", VSeries prcp);
                 ("birke", b); ("gräser", g); ("ambrosia", a);
                 ("muedigkeit", VInt (in_fatigue i));
                 ("nase_laufen", VInt (in_runnynose i));
                 ("halsweh", VInt (in_sorethroat i));
                 ("anmerkungen", VStr (in_notes i))]).
  assert (Hentry : make_entry i (Some data)
                     [("birke", b); ("gräser", g); ("ambrosia", a)] = Ok entry).
  { unfold make_entry, weather_getitem. by rewrite Ht, Hr, Hp. }
  destruct (script_reaches_save w i s (Some data) _ entry
              Hfetch Hsave Hweather Hpollen Hentry) as (s1 & Hfiles & Hrun).
  destruct (save_entry_result w entry s1) as [(e & He & _) | (_ & s' & Hs')];
    [congruence|].
  exists tavg, rhum, prcp, b, g, a. eexists.
  rewrite Hrun, Hs'. cbn [fst snd].
  split_and!; [done..|reflexivity|done|].
  rewrite (save_entry_files _ _ _ _ Hs'), lookup_insert_eq, Hfiles.
  by destruct (files s !! store_file).
Qed.

(** X12: when the frame of the weather lacks one of the columns [tavg],
    [rhum], [prcp], a run with the first button pressed ends with
    [KeyError] and changes no file. *)
Theorem script_missing_weather_column (w : World) (i : Inputs) (s : State)
    (data : DataFrame) (key : string) :
  in_fetch i = true →
  get_weather w (VDate (in_dt i)) (in_lat i) (in_lon i) = Ok (Some data) →
  key ∈ weather_keys →
  key ∉ columns data →
  (script w i s).1 = Raise KeyError ∧ files (script w i s).2 = files s.
Proof.
  intros Hfetch Hweather Hkey Hmissing.
  destruct (script_weather_error w i s KeyError Hfetch) as (s1 & [Hfiles _] & ->).
  - right. exists (Some data), key. split_and!; [done..|].
    unfold weather_getitem. by rewrite df_getitem_missing.
  - done.
Qed.

Lemma script_saves_reading_witness :
  (script partial_world pollenstiftung_inputs diary_state).1 = Ok tt ∧
  files (script partial_world pollenstiftung_inputs diary_state).2 !! store_file =
    Some [VStr <$> entry_columns;
          (sample_entry "gestern").*2;
          [VDate may_1; VFloat default_lat; VFloat default_lon;
           VSeries [VFloat 12.5]; VSeries [VFloat 60]; VSeries [VFloat 0];
           VInt 2; VNone; VNone;
           VInt 7; VInt 4; VInt 1; VStr "Birken"]].
Proof.
  destruct (script_saves_reading partial_world pollenstiftung_inputs diary_state
              sample_daily)
    as (tavg & rhum & prcp & birke & graeser & ambrosia & row
        & (Ht & Hr & Hp) & Hpollen & -> & Hrun & Hfile).
  - reflexivity.
  - reflexivity.
  - reflexivity.
  - intros key Hkey. unfold weather_keys in Hkey.
    rewrite !elem_of_cons, elem_of_nil in Hkey.
    destruct Hkey as [->|[->|[->|[]]]]; simpl; set_solver.
  - reflexivity.
  - injection Ht as <-. injection Hr as <-. injection Hp as <-.
    injection Hpollen as <- <- <-.
    split; [exact Hrun | exact Hfile].
Defined.

Lemma script_missing_weather_column_witness :
  (script dry_world (sample_inputs "Heuschnupfen") empty_state).1
    = Raise KeyError ∧
  files (script dry_world (sample_inputs "Heuschnupfen") empty_state).2
    = files empty_state.
Proof.
  apply (script_missing_weather_column dry_world (sample_inputs "Heuschnupfen")
           empty_state dry_daily "rhum").
  - reflexivity.
  - reflexivity.
  - unfold weather_keys. set_solver.
  - simpl. rewrite !not_elem_of_cons. split_and!; try discriminate.
    apply not_elem_of_nil.
Defined.

(** X13: a run asks only the pollen source that is chosen: with another
    choice than Pollenstiftung.de the run is the same whatever
    Pollenstiftung.de would answer, and with Pollenstiftung.de chosen it is
    the same whatever the DWD server would answer. *)
Theorem script_asks_chosen_source (w : World) (i : Inputs) (s : State) :
  (∀ f, in_source i ≠ "Pollenstiftung.de" →
        script (with_requests_get w f) i s = script w i s) ∧
  (∀ f, in_source i = "Pollenstiftung.de" →
        script (with_read_csv w f) i s = script w i s).
Proof.
  split; intros f Hsource; unfold script;
    destruct (decide (in_source i = "Pollenstiftung.de")); done.
Qed.

Lemma script_asks_chosen_source_witness :
  script (with_requests_get (online_world None) (λ _ _, Raise Timeout))
    (sample_inputs "Heuschnupfen") empty_state =
  script (online_world None) (sample_inputs "Heuschnupfen") empty_state.
Proof.
  destruct (script_asks_chosen_source (online_world None)
              (sample_inputs "Heuschnupfen") empty_state) as [H _].
  apply H. discriminate.
Defined.
